(** * Context Library: dual-store memory engine

    A shallow embedding of the TypeScript sources of the MCP Context Library
    (the D1 helpers of [src/utils/db.ts], the Vectorize helpers with
    [storeMemory], [searchMemories], [restoreMissingMemoriesToVectorize] and
    [deleteVectorById], and the MCP tool handlers [add_to_memory],
    [remember_artifact] and [reconstruct_artifact]), followed by the
    properties of the specification that were checked against it.

    Conventions of the embedding:
    - a JavaScript string is a [string] of 8-bit code units, read as the
      code units below 256 of a UTF-16 string;
    - a [number] holding a similarity score is a binary64 [float]; counters
      and array indices are [nat];
    - every [await] on an external service (Workers AI, Vectorize, D1), every
      [uuidv4()] and every [new Date()] is one step of an explicit state and
      exception monad over a [World]; what the services answer is read from
      an [Env] of oracles indexed by the number of external calls made so
      far, so that any call may fail independently of the others;
    - [console.log], [console.error] and the [setTimeout] pauses have no
      effect on the stores and are left out. *)

From Stdlib Require Import ZArith NArith String Ascii List Floats Lia Bool Sorted.
From stdpp Require Import base option list gmap strings pretty.

Set Default Proof Using "Type".
#[local] Set Warnings "-inexact-float".

(** ** JavaScript strings and values *)

Module JS.

Definition LF : string := String "010" EmptyString.

(** [String.prototype.toLowerCase] on one code unit below 256: the ASCII
    capitals and the Latin-1 capitals (all of 192..222 but the
    multiplication sign 215) move up by 32. *)
Definition lowerUnit (c : ascii) : ascii :=
  let n := N_of_ascii c in
  if ((65 <=? n) && (n <=? 90) || (192 <=? n) && (n <=? 222) && negb (n =? 215))%N
  then ascii_of_N (n + 32) else c.

Fixpoint toLowerCase (s : string) : string :=
  match s with
  | EmptyString => EmptyString
  | String c s' => String (lowerUnit c) (toLowerCase s')
  end.

(** WhiteSpace and LineTerminator code units below 256 (what [\s] and
    [trim] recognise): TAB, LF, VT, FF, CR, SPACE and NBSP. *)
Definition isWhiteSpace (c : ascii) : bool :=
  let n := N_of_ascii c in
  ((9 <=? n) && (n <=? 13) || (n =? 32) || (n =? 160))%N.

(** LineTerminator code units below 256 (where [^] matches under the
    [m] flag): LF and CR. *)
Definition isLineTerminator (c : ascii) : bool :=
  let n := N_of_ascii c in ((n =? 10) || (n =? 13))%N.

Definition isEmpty (s : string) : bool :=
  match s with EmptyString => true | _ => false end.

(** A string is truthy when it is not empty. *)
Definition truthy (s : string) : bool := negb (isEmpty s).

Fixpoint trimStart (s : string) : string :=
  match s with
  | EmptyString => EmptyString
  | String c s' => if isWhiteSpace c then trimStart s' else s
  end.

Fixpoint trimEnd (s : string) : string :=
  match s with
  | EmptyString => EmptyString
  | String c s' =>
      let t := trimEnd s' in
      if isWhiteSpace c && isEmpty t then EmptyString else String c t
  end.

Definition trim (s : string) : string := trimEnd (trimStart s).

Definition startsWith (s prefix : string) : bool := String.prefix prefix s.

(** [s.includes(k)]: [k] starts at some position of [s]. *)
Fixpoint includes (s k : string) : bool :=
  startsWith s k ||
  match s with
  | EmptyString => false
  | String _ s' => includes s' k
  end.

(** [s.split(sep)] for a non-empty separator: [skip] counts the code
    units of a separator still to be passed over, [cur] is the piece being
    read. *)
Fixpoint splitFrom (sep : string) (s : string) (skip : nat) (cur : string)
  : list string :=
  match s with
  | EmptyString => [cur]
  | String c s' =>
      match skip with
      | S k => splitFrom sep s' k cur
      | O =>
          if startsWith s sep
          then cur :: splitFrom sep s' (String.length sep - 1) EmptyString
          else splitFrom sep s' 0 (cur +:+ String c EmptyString)
      end
  end.

Definition split (s sep : string) : list string := splitFrom sep s 0 EmptyString.

(** [arr.join(sep)] *)
Definition join (l : list string) (sep : string) : string := String.concat sep l.

(** A number printed in a template literal. *)
Definition showNat (n : nat) : string := pretty n.

(** What a [throw] carries: an [Error] object with its message, or any
    other value. *)
Inductive exn : Type :=
| JsError (message : string)
| JsOther (shown : string).

(** [error instanceof Error ? error.message : 'Unknown error'] *)
Definition errorMessage (e : exn) : string :=
  match e with
  | JsError m => m
  | JsOther _ => "Unknown error"
  end.

(** [String(error)] *)
Definition showError (e : exn) : string :=
  match e with
  | JsError m => "Error: " +:+ m
  | JsOther s => s
  end.

End JS.

(** ** Effects: state, exceptions and the external services *)

Module Eff.

(** How a computation over a state [S] ends: it returns a value or throws,
    and in both cases the state it reached is kept (a [catch] block sees
    every mutation made before the [throw]). *)
Inductive Outcome (S A : Type) : Type :=
| Returned (a : A) (s : S)
| Thrown (e : JS.exn) (s : S).
Arguments Returned {S A} a s.
Arguments Thrown {S A} e s.

Definition M (S A : Type) : Type := S -> Outcome S A.

Definition ret {S A} (a : A) : M S A := fun s => Returned a s.

Definition throw {S A} (e : JS.exn) : M S A := fun s => Thrown e s.

Definition bind {S A B} (m : M S A) (k : A -> M S B) : M S B :=
  fun s =>
    match m s with
    | Returned a s' => k a s'
    | Thrown e s' => Thrown e s'
    end.

(** [try { m } catch (error) { handler error }] *)
Definition tryCatch {S A} (m : M S A) (handler : JS.exn -> M S A) : M S A :=
  fun s =>
    match m s with
    | Returned a s' => Returned a s'
    | Thrown e s' => handler e s'
    end.

(** A computation on the world run inside a function that also has local
    mutable variables [L]. *)
Definition lift {W L A} (m : M W A) : M (W * L) A :=
  fun s =>
    match m (fst s) with
    | Returned a w' => Returned a (w', snd s)
    | Thrown e w' => Thrown e (w', snd s)
    end.

(** The state a computation ends in. *)
Definition finalState {S A} (o : Outcome S A) : S :=
  match o with
  | Returned _ s => s
  | Thrown _ s => s
  end.

(** An assignment to the local variables. *)
Definition assign {W L} (f : L -> L) : M (W * L) unit :=
  fun s => Returned tt (fst s, f (snd s)).

End Eff.

Export Eff.

Notation "'let*' x ':=' m 'in' k" := (bind m (fun x => k))
  (at level 10, x name, m at level 100, k at level 200).
Notation "'run' m 'then' k" := (bind m (fun _ => k))
  (at level 10, m at level 100, k at level 200).

(** The records the services hold and exchange. *)

Record VectorizeVector : Type := mkVector {
  vec_id : string;
  vec_values : list float;
  vec_namespace : string;
  vec_content : string;     (* metadata.content *)
  vec_type : string         (* metadata.type *)
}.

(** A row of the D1 table
    [memories (id TEXT PRIMARY KEY, userId, content, created_at)];
    [row_created_at] is the logical time of the insert. *)
Record MemoryRow : Type := mkRow {
  row_id : string;
  row_userId : string;
  row_content : string;
  row_created_at : nat
}.

(** What [SELECT id, content] gives back. *)
Record D1Memory : Type := mkMemory {
  mem_id : string;
  mem_content : string
}.

(** A match of a Vectorize query: [match_content] is [metadata.content]
    when the metadata is there and its content is a string. *)
Record VectorizeMatch : Type := mkMatch {
  match_id : string;
  match_score : float;
  match_content : option string
}.

Inductive AiReply : Type :=
| AiThrows (e : JS.exn)
| AiData (data : list (list float)).

Inductive QueryReply : Type :=
| QueryThrows (e : JS.exn)
| QueryMatches (matches : option (list VectorizeMatch)).

Inductive D1Statement : Type :=
| InsertMemory (id userId content : string)
| SelectMemories (userId : string)
| DeleteMemory (id userId : string).

(** One external call, with what it was given and how it ended. *)
Inductive Call : Type :=
| CallUuid (id : string)
| CallNow (iso : string)
| CallAiRun (text : string) (reply : AiReply)
| CallUpsert (vs : list VectorizeVector) (failure : option JS.exn)
| CallGetByIds (ids : list string) (failure : option JS.exn)
| CallDeleteByIds (ids : list string) (failure : option JS.exn)
| CallQuery (namespace : string) (topK : nat)
    (filter : option (list (string * string))) (reply : QueryReply)
| CallD1 (stmt : D1Statement) (failure : option JS.exn).

(** What the Vectorize index keeps under an id. *)
Record VectorEntry : Type := mkEntry {
  ent_values : list float;
  ent_namespace : string;
  ent_content : string;
  ent_type : string
}.

Definition entryOf (v : VectorizeVector) : VectorEntry :=
  mkEntry (vec_values v) (vec_namespace v) (vec_content v) (vec_type v).

Definition vectorOf (id : string) (e : VectorEntry) : VectorizeVector :=
  mkVector id (ent_values e) (ent_namespace e) (ent_content e) (ent_type e).

(** The two stores and the history of external calls, newest first. *)
Record World : Type := mkWorld {
  vectors : gmap string VectorEntry;       (* the Vectorize index, keyed by id *)
  memories : list MemoryRow;               (* the D1 table, last insert first *)
  calls : list Call
}.

(** The environment of a request: what the services answer to the
    [n]-th external call. [fault n = Some e] makes a Vectorize mutation or
    read by id, or a D1 statement, reject with [e] and leave its store
    untouched. *)
Record Env : Type := mkEnv {
  AI_run : nat -> string -> AiReply;
  VECTORIZE_query : nat -> QueryReply;
  fault : nat -> option JS.exn;
  uuid : nat -> string;
  clock : nat -> string
}.

Definition tick (w : World) : nat := length (calls w).

Definition logCall (c : Call) (w : World) : World :=
  mkWorld (vectors w) (memories w) (c :: calls w).

(** [uuidv4()] *)
Definition uuidv4 (env : Env) : M World string :=
  fun w => let id := uuid env (tick w) in Returned id (logCall (CallUuid id) w).

(** [new Date().toISOString()] *)
Definition nowISO (env : Env) : M World string :=
  fun w => let t := clock env (tick w) in Returned t (logCall (CallNow t) w).

(** [env.AI.run("@cf/baai/bge-m3", { text })] *)
Definition AI_run_bge_m3 (env : Env) (text : string) : M World (list (list float)) :=
  fun w =>
    let reply := AI_run env (tick w) text in
    let w' := logCall (CallAiRun text reply) w in
    match reply with
    | AiThrows e => Thrown e w'
    | AiData data => Returned data w'
    end.

(** The index after an upsert: each vector, in turn, replaces the entry of
    its id. *)
Definition upsertAll (vs : list VectorizeVector) (index : gmap string VectorEntry)
  : gmap string VectorEntry :=
  foldl (fun m v => <[vec_id v := entryOf v]> m) index vs.

(** [env.VECTORIZE.upsert(vs)] *)
Definition VECTORIZE_upsert (env : Env) (vs : list VectorizeVector) : M World unit :=
  fun w =>
    match fault env (tick w) with
    | Some e => Thrown e (logCall (CallUpsert vs (Some e)) w)
    | None =>
        Returned tt
          (mkWorld (upsertAll vs (vectors w))
                   (memories w) (CallUpsert vs None :: calls w))
    end.

(** [env.VECTORIZE.getByIds(ids)]: the stored vectors among [ids]. *)
Definition VECTORIZE_getByIds (env : Env) (ids : list string)
  : M World (list VectorizeVector) :=
  fun w =>
    match fault env (tick w) with
    | Some e => Thrown e (logCall (CallGetByIds ids (Some e)) w)
    | None =>
        Returned (omap (fun id => vectorOf id <$> vectors w !! id) ids)
                 (logCall (CallGetByIds ids None) w)
    end.

(** [env.VECTORIZE.deleteByIds(ids)]: the request names ids only. *)
Definition VECTORIZE_deleteByIds (env : Env) (ids : list string) : M World unit :=
  fun w =>
    match fault env (tick w) with
    | Some e => Thrown e (logCall (CallDeleteByIds ids (Some e)) w)
    | None =>
        Returned tt
          (mkWorld (foldl (fun m id => delete id m) (vectors w) ids)
                   (memories w) (CallDeleteByIds ids None :: calls w))
    end.

(** [env.VECTORIZE.query(vector, options)] *)
Definition VECTORIZE_query_ (env : Env) (namespace : string) (topK : nat)
    (filter : option (list (string * string))) : M World (option (list VectorizeMatch)) :=
  fun w =>
    let reply := VECTORIZE_query env (tick w) in
    let w' := logCall (CallQuery namespace topK filter reply) w in
    match reply with
    | QueryThrows e => Thrown e w'
    | QueryMatches ms => Returned ms w'
    end.

(** ** Array.prototype.sort *)

(** [arr.sort(comparefn)]: the comparator's number is read by its sign, a
    NaN counting as zero, and the sort is stable. For a consistent
    comparator the result is the one stable sorted arrangement, which
    insertion from the right computes; [cmp a b] is asked with [a] the
    earlier element. *)
Section Sort.
Context {A : Type} (cmp : A -> A -> comparison).

Fixpoint insertSorted (x : A) (l : list A) : list A :=
  match l with
  | [] => [x]
  | y :: l' =>
      match cmp x y with
      | Gt => y :: insertSorted x l'
      | _ => x :: l
      end
  end.

Definition sortWith (l : list A) : list A := foldr insertSorted [] l.
End Sort.

(** The sign of a comparator's result when it is a binary64 number. *)
Definition signOfFloat (v : float) : comparison :=
  if PrimFloat.ltb v 0%float then Lt
  else if PrimFloat.ltb 0%float v then Gt
  else Eq.

(** ** src/utils/db.ts *)

Module Db.

Definition hasRow (id : string) (rows : list MemoryRow) : bool :=
  existsb (fun r => String.eqb (row_id r) id) rows.

(** [storeMemoryInD1(content, userId, env, memoryId)]:
    [INSERT INTO memories (id, userId, content) VALUES (?, ?, ?)]; the
    primary key makes a second insert of an id reject. The [catch] block
    logs and rethrows. *)
Definition storeMemoryInD1 (content userId : string) (env : Env) (memoryId : string)
  : M World string :=
  fun w =>
    let stmt := InsertMemory memoryId userId content in
    match fault env (tick w) with
    | Some e => Thrown e (logCall (CallD1 stmt (Some e)) w)
    | None =>
        if hasRow memoryId (memories w)
        then
          let e := JS.JsError "UNIQUE constraint failed: memories.id" in
          Thrown e (logCall (CallD1 stmt (Some e)) w)
        else
          Returned memoryId
            (mkWorld (vectors w)
                     (mkRow memoryId userId content (tick w) :: memories w)
                     (CallD1 stmt None :: calls w))
    end.

(** [ORDER BY created_at DESC]: the later insert first. *)
Definition byCreatedDesc (a b : MemoryRow) : comparison :=
  Nat.compare (row_created_at b) (row_created_at a).

(** [SELECT id, content FROM memories WHERE userId = ? ORDER BY created_at DESC] *)
Definition selectMemories (userId : string) (rows : list MemoryRow) : list D1Memory :=
  map (fun r => mkMemory (row_id r) (row_content r))
      (sortWith byCreatedDesc (filter (fun r => row_userId r = userId) rows)).

(** [getAllMemoriesFromD1(userId, env)]; the [catch] block logs and
    rethrows. *)
Definition getAllMemoriesFromD1 (userId : string) (env : Env) : M World (list D1Memory) :=
  fun w =>
    let stmt := SelectMemories userId in
    match fault env (tick w) with
    | Some e => Thrown e (logCall (CallD1 stmt (Some e)) w)
    | None => Returned (selectMemories userId (memories w)) (logCall (CallD1 stmt None) w)
    end.

(** [deleteMemoryFromD1(memoryId, userId, env)]:
    [DELETE FROM memories WHERE id = ? AND userId = ?] *)
Definition deleteMemoryFromD1 (memoryId userId : string) (env : Env) : M World unit :=
  fun w =>
    let stmt := DeleteMemory memoryId userId in
    match fault env (tick w) with
    | Some e => Thrown e (logCall (CallD1 stmt (Some e)) w)
    | None =>
        Returned tt
          (mkWorld (vectors w)
                   (filter (fun r => ¬ (row_id r = memoryId ∧ row_userId r = userId))
                           (memories w))
                   (CallD1 stmt None :: calls w))
    end.

End Db.

(** ** src/utils/vectorize.ts *)

Module Vectorize.

(** Minimum similarity score for vector search results *)
Definition MINIMUM_SIMILARITY_SCORE : float := 0.5%float.

(** [generateEmbeddings(text, env)]: [embeddings.data[0]], or an error
    when the reply holds no vector. *)
Definition generateEmbeddings (text : string) (env : Env) : M World (list float) :=
  let* data := AI_run_bge_m3 env text in
  match data with
  | values :: _ => ret values
  | [] => throw (JS.JsError "Failed to generate vector embedding")
  end.

(** [storeMemory(text, userId, env)] *)
Definition storeMemory (text userId : string) (env : Env) : M World string :=
  let* memoryId := uuidv4 env in
  let* values := generateEmbeddings text env in
  run VECTORIZE_upsert env [mkVector memoryId values userId text "memory"] then
  ret memoryId.

Record Memory : Type := mkFound {
  found_content : string;
  found_score : float;
  found_id : string
}.

(** The number [x || 0]. *)
Definition orZero (x : float) : float :=
  if PrimFloat.is_zero x || PrimFloat.is_nan x then 0%float else x.

(** The [map] callback of [searchMemories]. *)
Definition toMemory (m : VectorizeMatch) : Memory :=
  let content :=
    match match_content m with
    | Some c => c
    | None =>
        if JS.truthy (match_id m)
        then "Missing memory content (ID: " +:+ match_id m +:+ ")"
        else "Missing memory content"
    end in
  mkFound content (orZero (match_score m)) (match_id m).

(** [(a, b) => b.score - a.score] *)
Definition byScoreDescending (a b : Memory) : comparison :=
  signOfFloat (PrimFloat.sub (found_score b) (found_score a)).

(** [searchMemories(query, userId, env, metadataFilters?)] *)
Definition searchMemories (query userId : string) (env : Env)
    (metadataFilters : option (list (string * string))) : M World (list Memory) :=
  let* queryVector := generateEmbeddings query env in
  let* matches := VECTORIZE_query_ env userId 10 metadataFilters in
  match matches with
  | None | Some [] => ret []
  | Some ms =>
      let memories :=
        map toMemory
            (List.filter
               (fun m => PrimFloat.ltb MINIMUM_SIMILARITY_SCORE (match_score m)) ms) in
      ret (sortWith byScoreDescending memories)
  end.

(** [{ memoryId, error }] *)
Record RestoreError : Type := mkError {
  err_memoryId : string;
  err_error : string
}.

(** The local variables [restored] and [errors] of
    [restoreMissingMemoriesToVectorize]; they double as its result. *)
Record RestoreResult : Type := mkResult {
  restored : nat;
  errors : list RestoreError
}.

Definition pushError (e : RestoreError) : M (World * RestoreResult) unit :=
  assign (fun l => mkResult (restored l) (errors l ++ [e])).

Definition addRestored (n : nat) : M (World * RestoreResult) unit :=
  assign (fun l => mkResult (restored l + n) (errors l)).

Definition CHUNK_SIZE : nat := 10.

(** [arr.slice(i, j)] *)
Definition slice {A} (l : list A) (i j : nat) : list A := take (j - i) (drop i l).

(** The chunks pushed by
    [for (let i = 0; i < memories.length; i += CHUNK_SIZE)]: [i] runs over
    the multiples of [CHUNK_SIZE] below the length. *)
Definition chunksOf (memories : list D1Memory) : list (list D1Memory) :=
  map (fun k => slice memories (k * CHUNK_SIZE) (k * CHUNK_SIZE + CHUNK_SIZE))
      (seq 0 ((length memories + (CHUNK_SIZE - 1)) / CHUNK_SIZE)).

(** The vector rebuilt for a row once its content is embedded. *)
Definition restoredVector (userId : string) (memory : D1Memory) (values : list float)
  : VectorizeVector :=
  mkVector (mem_id memory) values userId (mem_content memory) "memory".

Definition embeddingError (memory : D1Memory) (error : JS.exn) : RestoreError :=
  mkError (mem_id memory) ("Failed to generate embedding: " +:+ JS.errorMessage error).

(** The loop over [missingMemories]: one embedding call per row, its
    failure caught and recorded, the vectors of the others collected. *)
Fixpoint embedMissing (userId : string) (env : Env) (missingMemories : list D1Memory)
    (vectorsToUpsert : list VectorizeVector)
  : M (World * RestoreResult) (list VectorizeVector) :=
  match missingMemories with
  | [] => ret vectorsToUpsert
  | memory :: rest =>
      let* vectorsToUpsert' :=
        tryCatch
          (let* values := lift (generateEmbeddings (mem_content memory) env) in
           ret (vectorsToUpsert ++ [restoredVector userId memory values]))
          (fun error =>
             run pushError (embeddingError memory error) then
             ret vectorsToUpsert) in
      embedMissing userId env rest vectorsToUpsert'
  end.

(** The rows of a chunk with no vector among [existingVectors]. *)
Definition missingFrom (existingVectors : list VectorizeVector) (chunk : list D1Memory)
  : list D1Memory :=
  let existingIds : gset string := list_to_set (map vec_id existingVectors) in
  List.filter (fun memory => negb (bool_decide (mem_id memory ∈ existingIds))) chunk.

(** The [try] block of one chunk. *)
Definition restoreChunk (userId : string) (env : Env) (chunk : list D1Memory)
  : M (World * RestoreResult) unit :=
  let memoryIds := map mem_id chunk in
  let* existingVectors := lift (VECTORIZE_getByIds env memoryIds) in
  let missingMemories := missingFrom existingVectors chunk in
  match missingMemories with
  | [] => ret tt
  | _ :: _ =>
      let* vectorsToUpsert := embedMissing userId env missingMemories [] in
      match vectorsToUpsert with
      | [] => ret tt
      | _ :: _ =>
          run lift (VECTORIZE_upsert env vectorsToUpsert) then
          addRestored (length vectorsToUpsert)
      end
  end.

Definition chunkError (error : JS.exn) (memory : D1Memory) : RestoreError :=
  mkError (mem_id memory) ("Chunk processing failed: " +:+ JS.errorMessage error).

Fixpoint pushErrors (es : list RestoreError) : M (World * RestoreResult) unit :=
  match es with
  | [] => ret tt
  | e :: es' => run pushError e then pushErrors es'
  end.

(** One turn of the loop over the chunks, with its [catch]. *)
Definition processChunk (userId : string) (env : Env) (chunk : list D1Memory)
  : M (World * RestoreResult) unit :=
  tryCatch (restoreChunk userId env chunk)
           (fun error => pushErrors (map (chunkError error) chunk)).

Fixpoint processChunks (userId : string) (env : Env) (chunks : list (list D1Memory))
  : M (World * RestoreResult) unit :=
  match chunks with
  | [] => ret tt
  | chunk :: rest =>
      run processChunk userId env chunk then
      processChunks userId env rest
  end.

Definition readError (error : JS.exn) : RestoreError :=
  mkError "unknown" ("Failed to get memories from D1: " +:+ JS.errorMessage error).

(** The body of [restoreMissingMemoriesToVectorize] with its outer
    [catch], over the world and the two local variables. *)
Definition restoreWithLocals (userId : string) (env : Env)
  : M (World * RestoreResult) unit :=
  tryCatch
    (let* memories := lift (Db.getAllMemoriesFromD1 userId env) in
     match memories with
     | [] => ret tt
     | _ :: _ => processChunks userId env (chunksOf memories)
     end)
    (fun error => pushError (readError error)).

(** [restoreMissingMemoriesToVectorize(userId, env)]: every [return]
    hands back [{ restored, errors }]. *)
Definition restoreMissingMemoriesToVectorize (userId : string) (env : Env)
  : M World RestoreResult :=
  fun w =>
    match restoreWithLocals userId env (w, mkResult 0 []) with
    | Returned _ (w', locals) => Returned locals w'
    | Thrown e (w', _) => Thrown e w'
    end.

(** [updateMemoryVector(memoryId, newContent, userId, env)] *)
Definition updateMemoryVector (memoryId newContent userId : string) (env : Env)
  : M World unit :=
  let* newValues := generateEmbeddings newContent env in
  VECTORIZE_upsert env [mkVector memoryId newValues userId newContent "memory"].

(** [deleteVectorById(memoryId, userId, env)]: [userId] is only logged;
    the [catch] block logs and rethrows. *)
Definition deleteVectorById (memoryId userId : string) (env : Env) : M World unit :=
  VECTORIZE_deleteByIds env [memoryId].

End Vectorize.

(** ** src/mcp.ts, the tool handlers *)

Module Mcp.

(** [x || fallback] on an optional string: [undefined] and the empty
    string are falsy. *)
Definition orElse (x : option string) (fallback : string) : string :=
  match x with
  | Some s => if JS.truthy s then s else fallback
  | None => fallback
  end.

(** [detectDocumentType(content)] of [remember_artifact] *)
Definition detectDocumentType (content : string) : string :=
  let lower := JS.toLowerCase content in
  if JS.includes lower "product requirements" || JS.includes lower "user stories"
     || JS.includes lower "acceptance criteria"
  then "PRD"
  else if JS.includes lower "technical specification" || JS.includes lower "architecture"
          || JS.includes lower "api reference"
  then "TechnicalSpec"
  else if JS.includes lower "feature request" || JS.includes lower "user story"
  then "FeatureRequest"
  else if JS.includes lower "journal"
  then "Journal"
  else "Documentation".

(** [const finalDocType = documentType || detectDocumentType(thingToRemember)] *)
Definition finalDocType (documentType : option string) (thingToRemember : string)
  : string :=
  orElse documentType (detectDocumentType thingToRemember).

Record Section : Type := mkSection {
  title : string;
  content : string;
  type : string
}.

(** Whether [#{1,3}\s] matches at the start of [s]: one to three [#] and
    then a whitespace code unit. *)
Definition headerMarkAt (s : string) : bool :=
  match s with
  | String "#" (String c1 r1) =>
      JS.isWhiteSpace c1 ||
      (Ascii.eqb c1 "#" &&
       match r1 with
       | String c2 r2 =>
           JS.isWhiteSpace c2 ||
           (Ascii.eqb c2 "#" &&
            match r2 with
            | String c3 _ => JS.isWhiteSpace c3
            | EmptyString => false
            end)
       | EmptyString => false
       end)
  | _ => false
  end.

(** [content.split(/(?=^#{1,3}\s)/m)]: a cut before every position other
    than the first that starts a line and where the header mark matches.
    [prev] is the code unit before the position, [cur] the piece being read. *)
Fixpoint splitAtHeaders (s : string) (prev : option ascii) (cur : string)
  : list string :=
  match s with
  | EmptyString => [cur]
  | String c s' =>
      let cut :=
        match prev with
        | None => false
        | Some p => JS.isLineTerminator p && headerMarkAt s
        end in
      if cut
      then cur :: splitAtHeaders s' (Some c) (String c EmptyString)
      else splitAtHeaders s' (Some c) (cur +:+ String c EmptyString)
  end.

(** [content.split(/(?=^#{1,3}\s)/m).filter(section => section.trim())] *)
Definition headerSections (content : string) : list string :=
  List.filter (fun section => JS.truthy (JS.trim section))
              (splitAtHeaders content None EmptyString).

Fixpoint dropHashes (n : nat) (s : string) : string :=
  match n, s with
  | S k, String "#" s' => dropHashes k s'
  | _, _ => s
  end.

(** [line.replace(/^#{1,3}\s*/, '')] *)
Definition stripHeaderMark (line : string) : string :=
  match line with
  | String "#" _ => JS.trimStart (dropHashes 3 line)
  | _ => line
  end.

(** The [forEach] callback over the header sections; [None] when the body
    is empty. *)
Definition headerSection (index : nat) (section : string) : option Section :=
  let lines := JS.split (JS.trim section) JS.LF in
  let header := JS.trim (stripHeaderMark (hd EmptyString lines)) in
  let body := JS.trim (JS.join (tl lines) JS.LF) in
  if JS.truthy body
  then Some (mkSection
               (if JS.truthy header then header else "Section " +:+ JS.showNat (index + 1))
               body "section")
  else None.

(** Whether one of the lower-case [words] starts [s], letter case ignored. *)
Definition startsWithAnyCI (words : list string) (s : string) : option string :=
  List.find (fun w => JS.startsWith (JS.toLowerCase s) w) words.

(** The lazy [[\s\S]*?] before the lookahead
    [(?=\n\s*(?:b1|...|bn)|$)]: the text up to the first line feed that is
    followed, after any whitespace, by one of [bounds], or up to the end. *)
Fixpoint takeUntilBoundary (bounds : list string) (s : string) : string :=
  match s with
  | EmptyString => EmptyString
  | String c s' =>
      if Ascii.eqb c "010" && bool_decide (is_Some (startsWithAnyCI bounds (JS.trimStart s')))
      then EmptyString
      else String c (takeUntilBoundary bounds s')
  end.

Fixpoint dropUnits (n : nat) (s : string) : string :=
  match n, s with
  | S k, String _ s' => dropUnits k s'
  | _, _ => s
  end.

(** [content.match(pattern)[0]] for a pattern
    [/(k1|...|kn)[\s\S]*?(?=\n\s*(?:b1|...|bm)|$)/i]: the leftmost position
    where a keyword starts, the first such keyword, and the lazy rest. *)
Fixpoint matchPattern (keywords bounds : list string) (s : string) : option string :=
  match startsWithAnyCI keywords s with
  | Some kw =>
      let n := String.length kw in
      Some (String.substring 0 n s +:+ takeUntilBoundary bounds (dropUnits n s))
  | None =>
      match s with
      | EmptyString => None
      | String _ s' => matchPattern keywords bounds s'
      end
  end.

(** [prdPatterns]: the keywords, the words of the lookahead, the title. *)
Definition prdPatterns : list (list string * list string * string) :=
  [ (["executive summary"; "overview"; "summary"],
     ["problem"; "solution"; "requirements"; "success"; "metrics"; "timeline"],
     "Executive Summary");
    (["problem statement"; "problem"; "challenge"],
     ["solution"; "requirements"; "success"; "metrics"; "timeline"],
     "Problem Statement");
    (["solution"; "approach"; "proposal"],
     ["requirements"; "success"; "metrics"; "timeline"],
     "Solution Approach");
    (["requirements"; "specs"; "specifications"],
     ["success"; "metrics"; "timeline"],
     "Requirements");
    (["success criteria"; "success metrics"; "metrics"; "kpis"],
     ["timeline"],
     "Success Criteria") ].

(** The sections pushed by [prdPatterns.forEach]. *)
Definition prdSections (content : string) : list Section :=
  omap (fun '(keywords, bounds, title) =>
          match matchPattern keywords bounds content with
          | Some m => Some (mkSection title (JS.trim m) "section")
          | None => None
          end)
       prdPatterns.

(** [content.split('\n\n').filter(p => p.trim().length > 50)] *)
Definition paragraphs (content : string) : list string :=
  List.filter (fun p => 50 <? String.length (JS.trim p))
              (JS.split content (JS.LF +:+ JS.LF)).

(** The sections pushed by [paragraphs.forEach]. *)
Definition paragraphSections (content : string) : list Section :=
  imap (fun index paragraph =>
          mkSection ("Part " +:+ JS.showNat (index + 1)) (JS.trim paragraph) "chunk")
       (paragraphs content).

(** [parseDocumentSections(content, docType)] *)
Definition parseDocumentSections (content docType : string) : list Section :=
  let headers := headerSections content in
  let sections :=
    if 1 <? length headers
    then omap (fun '(index, section) => headerSection index section)
              (imap (fun index section => (index, section)) headers)
    else
      let sections := if String.eqb docType "PRD" then prdSections content else [] in
      match sections with
      | [] => paragraphSections content
      | _ :: _ => sections
      end in
  match sections with
  | [] => [mkSection "Complete Document" content "full"]
  | _ :: _ => sections
  end.

(** [tags ? tags.join(', ') : fallback] *)
Definition tagsOr (tags : option (list string)) (fallback : string) : string :=
  match tags with
  | Some ts => JS.join ts ", "
  | None => fallback
  end.

(** [generateMetadata(section, docType, projectName, priority, tags)] *)
Definition generateMetadata (env : Env) (section : Section) (docType : string)
    (projectName priority : option string) (tags : option (list string))
  : M World string :=
  let* timestamp := nowISO env in
  ret ("PROJECT: " +:+ orElse projectName "Unknown" +:+ JS.LF +:+
       "DOCUMENT_TYPE: " +:+ docType +:+ JS.LF +:+
       "SECTION: " +:+ title section +:+ JS.LF +:+
       "PRIORITY: " +:+ orElse priority "Medium" +:+ JS.LF +:+
       "TAGS: " +:+ tagsOr tags ("document, " +:+ JS.toLowerCase docType) +:+ JS.LF +:+
       "TIMESTAMP: " +:+ timestamp +:+ JS.LF +:+
       "SECTION_TYPE: " +:+ type section +:+ JS.LF +:+
       JS.LF +:+
       content section).

(** [add_to_memory]: the vector first, then the row. *)
Definition add_to_memory (userId : string) (env : Env) (thingToRemember : string)
  : M World string :=
  tryCatch
    (let* memoryId := Vectorize.storeMemory thingToRemember userId env in
     run Db.storeMemoryInD1 thingToRemember userId env memoryId then
     ret ("Remembered: " +:+ thingToRemember))
    (fun error => ret ("Failed to remember: " +:+ JS.showError error)).

Record StoredSection : Type := mkStored {
  stored_title : string;
  stored_type : string;
  stored_memoryId : string
}.

(** [for (const section of sections)] with its [try]/[catch];
    [successCount] is incremented with every push to [storedSections] and
    is its length. *)
Fixpoint storeSections (userId : string) (env : Env) (docType : string)
    (projectName priority : option string) (tags : option (list string))
    (sections : list Section) (storedSections : list StoredSection)
  : M World (list StoredSection) :=
  match sections with
  | [] => ret storedSections
  | section :: rest =>
      let* storedSections' :=
        tryCatch
          (let* formattedContent :=
             generateMetadata env section docType projectName priority tags in
           let* memoryId := Vectorize.storeMemory formattedContent userId env in
           run Db.storeMemoryInD1 formattedContent userId env memoryId then
           ret (storedSections ++ [mkStored (title section) (type section) memoryId]))
          (fun sectionError => ret storedSections) in
      storeSections userId env docType projectName priority tags rest storedSections'
  end.

(** The text of the master index entry. *)
Definition masterContent (docType : string) (projectName priority : option string)
    (tags : option (list string)) (timestamp : string)
    (sections : list Section) (storedSections : list StoredSection) : string :=
  "PROJECT: " +:+ orElse projectName "Unknown" +:+ JS.LF +:+
  "DOCUMENT_TYPE: " +:+ docType +:+ JS.LF +:+
  "SECTION: Master Index" +:+ JS.LF +:+
  "PRIORITY: " +:+ orElse priority "Medium" +:+ JS.LF +:+
  "TAGS: " +:+ tagsOr tags ("document, " +:+ JS.toLowerCase docType) +:+ ", master-index"
    +:+ JS.LF +:+
  "TIMESTAMP: " +:+ timestamp +:+ JS.LF +:+
  "SECTION_COUNT: " +:+ JS.showNat (length sections) +:+ JS.LF +:+
  JS.LF +:+
  "DOCUMENT OVERVIEW:" +:+ JS.LF +:+
  "This document has been stored in " +:+ JS.showNat (length sections) +:+ " sections: "
    +:+ JS.join (map title sections) ", " +:+ JS.LF +:+
  JS.LF +:+
  "STORED SECTIONS:" +:+ JS.LF +:+
  JS.join (map (fun s => "- " +:+ stored_title s +:+ " (" +:+ stored_type s +:+ "): "
                         +:+ stored_memoryId s) storedSections) JS.LF.

(** [// Store a master index entry] *)
Definition storeMasterIndex (userId : string) (env : Env) (docType : string)
    (projectName priority : option string) (tags : option (list string))
    (sections : list Section) (storedSections : list StoredSection) : M World unit :=
  tryCatch
    (let* timestamp := nowISO env in
     let text := masterContent docType projectName priority tags timestamp
                               sections storedSections in
     let* masterMemoryId := Vectorize.storeMemory text userId env in
     run Db.storeMemoryInD1 text userId env masterMemoryId then
     ret tt)
    (fun masterError => ret tt).

(** The check mark of the reply, U+2713, as its UTF-8 bytes. *)
Definition checkMark : string :=
  String "226" (String "156" (String "147" EmptyString)).

(** [remember_artifact] *)
Definition remember_artifact (userId : string) (env : Env) (thingToRemember : string)
    (documentType projectName priority : option string) (tags : option (list string))
  : M World string :=
  tryCatch
    (let docType := finalDocType documentType thingToRemember in
     let sections := parseDocumentSections thingToRemember docType in
     let* storedSections :=
       storeSections userId env docType projectName priority tags sections [] in
     run storeMasterIndex userId env docType projectName priority tags
           sections storedSections then
     ret ("Remembered " +:+ docType +:+ " document with "
          +:+ JS.showNat (length storedSections) +:+ "/"
          +:+ JS.showNat (length sections) +:+ " sections stored:" +:+ JS.LF
          +:+ JS.join (map (fun s => checkMark +:+ " " +:+ stored_title s) storedSections)
                      JS.LF
          +:+ JS.LF +:+ JS.LF +:+ "Document tagged with: "
          +:+ tagsOr tags (JS.toLowerCase docType)))
    (fun error => ret ("Failed to remember artifact: " +:+ JS.showError error)).

End Mcp.

(** ** src/mcp.ts, the section order of [reconstruct_artifact] *)

Module Reconstruct.

(** [metadata[key] = value] on an object literal: the key [__proto__] is
    the prototype accessor, and assigning it a string changes nothing. *)
Definition assignProperty (metadata : gmap string string) (key value : string)
  : gmap string string :=
  if String.eqb key "__proto__" then metadata else <[key := value]> metadata.

(** The loop over the lines of a memory: a line with [': '] sets a
    property, the first empty line ends the metadata. The result is the
    metadata and [contentStart], which stays 0 when no empty line is met. *)
Fixpoint parseLines (lines : list string) (i : nat) (metadata : gmap string string)
  : gmap string string * nat :=
  match lines with
  | [] => (metadata, 0)
  | l :: rest =>
      let line := JS.trim l in
      if JS.includes line ": "
      then
        let parts := JS.split line ": " in
        parseLines rest (S i)
          (assignProperty metadata (nth 0 parts EmptyString) (nth 1 parts EmptyString))
      else if JS.isEmpty line then (metadata, S i)
      else parseLines rest (S i) metadata
  end.

(** A section parsed from a retrieved memory; [sectionName] is
    [metadata.SECTION || 'Unknown Section']. *)
Record Retrieved : Type := mkRetrieved {
  sectionName : string;
  sectionType : string;
  body : string;
  id : string
}.

(** [{ metadata, content, id }] *)
Record MasterIndex : Type := mkMaster {
  master_metadata : gmap string string;
  master_content : string;
  master_id : string
}.

(** One turn of [for (const memory of memories)]: the memory becomes the
    master index or one more section. *)
Definition collectMemory (acc : list Retrieved * option MasterIndex)
    (memory : Vectorize.Memory) : list Retrieved * option MasterIndex :=
  let lines := JS.split (Vectorize.found_content memory) JS.LF in
  let '(metadata, contentStart) := parseLines lines 0 ∅ in
  let content := JS.trim (JS.join (drop contentStart lines) JS.LF) in
  if bool_decide (metadata !! "SECTION" = Some "Master Index")
  then (fst acc, Some (mkMaster metadata content (Vectorize.found_id memory)))
  else (fst acc ++ [mkRetrieved (Mcp.orElse (metadata !! "SECTION") "Unknown Section")
                                (Mcp.orElse (metadata !! "SECTION_TYPE") "section")
                                content (Vectorize.found_id memory)],
        snd acc).

(** [// Parse all sections and find master index] *)
Definition collectSections (memories : list Vectorize.Memory)
  : list Retrieved * option MasterIndex :=
  foldl collectMemory ([], None) memories.

(** The own properties of the object literal [order]. *)
Definition order : list (string * Z) :=
  [ ("Executive Summary", 1%Z); ("Overview", 2%Z); ("Problem Statement", 3%Z);
    ("Solution Approach", 4%Z); ("Requirements", 5%Z); ("Success Criteria", 6%Z);
    ("Timeline", 7%Z) ].

(** The properties every object literal inherits from [Object.prototype]:
    each holds a function, or for [__proto__] the prototype itself. *)
Definition inheritedKeys : list string :=
  [ "constructor"; "hasOwnProperty"; "isPrototypeOf"; "propertyIsEnumerable";
    "toLocaleString"; "toString"; "valueOf"; "__proto__";
    "__defineGetter__"; "__defineSetter__"; "__lookupGetter__"; "__lookupSetter__" ].

(** What [order[name] || 999] evaluates to: a number, or the object found
    up the prototype chain under [name]. *)
Inductive OrderValue : Type :=
| OrdNumber (n : Z)
| OrdInherited (key : string).

Fixpoint ownProperty (table : list (string * Z)) (name : string) : option Z :=
  match table with
  | [] => None
  | (k, v) :: rest => if String.eqb k name then Some v else ownProperty rest name
  end.

(** [order[name] || 999]: the own property, else the inherited one (an
    object, hence truthy), else [undefined] and so 999. *)
Definition orderOf (name : string) : OrderValue :=
  match ownProperty order name with
  | Some n => if (n =? 0)%Z then OrdNumber 999 else OrdNumber n
  | None =>
      if existsb (String.eqb name) inheritedKeys
      then OrdInherited name
      else OrdNumber 999
  end.

(** A comparator's result. *)
Inductive JsNumber : Type :=
| Num (z : Z)
| NaN.

(** [aOrder !== bOrder]: numbers by value, objects by identity. *)
Definition strictlyUnequal (a b : OrderValue) : bool :=
  match a, b with
  | OrdNumber x, OrdNumber y => negb (x =? y)%Z
  | OrdInherited j, OrdInherited k => negb (String.eqb j k)
  | _, _ => true
  end.

(** [aOrder - bOrder]: an object converts to NaN. *)
Definition minus (a b : OrderValue) : JsNumber :=
  match a, b with
  | OrdNumber x, OrdNumber y => Num (x - y)
  | _, _ => NaN
  end.

Definition signOfNumber (v : JsNumber) : comparison :=
  match v with
  | Num z => (z ?= 0)%Z
  | NaN => Eq
  end.

Section WithCollation.
(** [String.prototype.localeCompare] of the runtime. *)
Variable localeCompare : string -> string -> Z.

(** The comparator given to [sections.sort]. *)
Definition compareSections (a b : Retrieved) : JsNumber :=
  let aOrder := orderOf (sectionName a) in
  let bOrder := orderOf (sectionName b) in
  if strictlyUnequal aOrder bOrder
  then minus aOrder bOrder
  else Num (localeCompare (sectionName a) (sectionName b)).

(** [sections.sort((a, b) => ...)] *)
Definition sortSections (sections : list Retrieved) : list Retrieved :=
  sortWith (fun a b => signOfNumber (compareSections a b)) sections.

(** The sections of [reconstruct_artifact] in the order they are
    assembled in, from the memories the search returned. *)
Definition orderedSections (memories : list Vectorize.Memory) : list Retrieved :=
  sortSections (fst (collectSections memories)).
End WithCollation.

End Reconstruct.

(** ** src/mcp.ts, the [add_to_memory] handler that takes a title, a
    project name and tags *)

Module McpMemory.

(** [detectDocumentType(content)] of [add_to_memory] *)
Definition detectDocumentType (content : string) : string :=
  let lower := JS.toLowerCase content in
  if JS.includes lower "product requirements" || JS.includes lower "user stories"
     || JS.includes lower "acceptance criteria"
  then "prd"
  else if JS.includes lower "technical specification" || JS.includes lower "architecture"
          || JS.includes lower "api reference"
  then "technical_spec"
  else if JS.includes lower "feature request" || JS.includes lower "user story"
  then "feature_request"
  else if JS.includes lower "journal"
  then "journal"
  else "memory".

(** [{ title, projectName, tags: tags || [] }] *)
Record Metadata : Type := mkMetadata {
  md_title : option string;
  md_projectName : option string;
  md_tags : list string
}.

(** An argument of a call: a string, or [JSON.stringify] of the metadata
    object (kept as the object it prints). *)
Inductive Argument : Type :=
| ArgString (s : string)
| ArgJson (metadata : Metadata).

(** A call [storeMemoryInD1(content, userId, env, memoryId, ...surplus)]:
    the function of [db.ts] has four parameters, and JavaScript drops the
    arguments past them. *)
Definition call_storeMemoryInD1 (content userId : string) (env : Env)
    (memoryId : string) (surplus : list Argument) : M World string :=
  Db.storeMemoryInD1 content userId env memoryId.

(** [add_to_memory] *)
Definition add_to_memory (userId : string) (env : Env) (thingToRemember : string)
    (title projectName : option string) (tags : option (list string))
  : M World string :=
  tryCatch
    (let type := detectDocumentType thingToRemember in
     let metadata := mkMetadata title projectName (default [] tags) in
     let* memoryId := Vectorize.storeMemory thingToRemember userId env in
     run call_storeMemoryInD1 thingToRemember userId env memoryId
           [ArgString type; ArgJson metadata] then
     ret ("Remembered: " +:+ thingToRemember))
    (fun error => ret ("Failed to remember: " +:+ JS.showError error)).

End McpMemory.

(** * Specification-level definitions *)

(** The ordered rule set of the specification: the keywords of a rule and
    the type it gives. *)
Definition typeRules : list (list string * string) :=
  [ (["product requirements"; "user stories"; "acceptance criteria"], "PRD");
    (["technical specification"; "architecture"; "api reference"], "TechnicalSpec");
    (["feature request"; "user story"], "FeatureRequest");
    (["journal"], "Journal") ].

(** A keyword is present in a text, letter case ignored: a stretch of the
    text reads as the keyword once put in lower case. *)
Definition present (keyword rawText : string) : Prop :=
  exists before stretch rest,
    rawText = before +:+ stretch +:+ rest /\ JS.toLowerCase stretch = keyword.

(** The type a rule set infers for a text: that of the first rule, in the
    listed order, one of whose keywords is present; Documentation when no
    rule matches. *)
Inductive infers (rawText : string) : list (list string * string) -> string -> Prop :=
| infers_none : infers rawText [] "Documentation"
| infers_first keywords type rest keyword :
    In keyword keywords -> present keyword rawText ->
    infers rawText ((keywords, type) :: rest) type
| infers_later keywords type rest type' :
    (forall keyword, In keyword keywords -> ~ present keyword rawText) ->
    infers rawText rest type' ->
    infers rawText ((keywords, type) :: rest) type'.

(** The rule set run as a program: the first rule with a keyword included
    in the lower-cased text. *)
Fixpoint firstMatch (rules : list (list string * string)) (lower : string) : string :=
  match rules with
  | [] => "Documentation"
  | (keywords, type) :: rest =>
      if existsb (JS.includes lower) keywords then type else firstMatch rest lower
  end.

(** The matches that pass the filter of [searchMemories]. *)
Definition aboveThreshold (ms : list VectorizeMatch) : list VectorizeMatch :=
  List.filter (fun m => PrimFloat.ltb Vectorize.MINIMUM_SIMILARITY_SCORE (match_score m)) ms.

(** The engine of the property test: four matches with the synthetic
    scores 0.3, 0.5, 0.51 and 0.9. *)
Definition syntheticEnv : Env :=
  mkEnv (fun _ _ => AiData [[1%float]])
        (fun _ => QueryMatches (Some [ mkMatch "a" 0.3 (Some "A"); mkMatch "b" 0.5 (Some "B");
                                       mkMatch "c" 0.51 (Some "C"); mkMatch "d" 0.9 (Some "D") ]))
        (fun _ => None) (fun _ => "id") (fun _ => "now").

Definition emptyWorld : World := mkWorld ∅ [] [].


(** How an embedding call ends for [generateEmbeddings]: with an error
    (thrown by the service, or raised for a reply without a vector) or with
    the first vector of the reply. *)
Definition embeddingOutcome (reply : AiReply) : JS.exn + list float :=
  match reply with
  | AiThrows e => inl e
  | AiData [] => inl (JS.JsError "Failed to generate vector embedding")
  | AiData (values :: _) => inr values
  end.

(** The embedding attempts of one pass over the missing rows: each row, in
    order, with the reply to the single call made for it, the first call
    being the [n]-th external call. *)
Fixpoint attemptsFrom (env : Env) (n : nat) (missing : list D1Memory)
  : list (D1Memory * AiReply) :=
  match missing with
  | [] => []
  | memory :: rest =>
      (memory, AI_run env n (mem_content memory)) :: attemptsFrom env (S n) rest
  end.

(** The vectors of the rows whose attempt gave a vector. *)
Definition embedded (userId : string) (attempts : list (D1Memory * AiReply))
  : list VectorizeVector :=
  omap (fun a => match embeddingOutcome (snd a) with
                 | inr values => Some (Vectorize.restoredVector userId (fst a) values)
                 | inl _ => None
                 end) attempts.

(** The error entries of the rows whose attempt failed. *)
Definition failedErrors (attempts : list (D1Memory * AiReply))
  : list Vectorize.RestoreError :=
  omap (fun a => match embeddingOutcome (snd a) with
                 | inl e => Some (Vectorize.embeddingError (fst a) e)
                 | inr _ => None
                 end) attempts.

(** The calls the attempts are, oldest first. *)
Definition aiCalls (attempts : list (D1Memory * AiReply)) : list Call :=
  map (fun a => CallAiRun (mem_content (fst a)) (snd a)) attempts.

(** The rows of a chunk with no entry in the index. *)
Definition missingIn (index : gmap string VectorEntry) (chunk : list D1Memory)
  : list D1Memory :=
  List.filter (fun memory => bool_decide (index !! mem_id memory = None)) chunk.

(** One turn of the loop over the chunks, told as the state it ends in:
    the existence check, one embedding attempt per missing row, the batch
    upsert of the vectors obtained, and the error entries of what failed. *)
Definition chunkResult (userId : string) (env : Env) (chunk : list D1Memory)
    (w : World) (locals : Vectorize.RestoreResult) : World * Vectorize.RestoreResult :=
  let ids := map mem_id chunk in
  match fault env (tick w) with
  | Some e =>
      (logCall (CallGetByIds ids (Some e)) w,
       Vectorize.mkResult (Vectorize.restored locals)
         (Vectorize.errors locals ++ map (Vectorize.chunkError e) chunk))
  | None =>
      let w1 := logCall (CallGetByIds ids None) w in
      let attempts := attemptsFrom env (tick w1) (missingIn (vectors w) chunk) in
      let w2 := mkWorld (vectors w) (memories w) (rev (aiCalls attempts) ++ calls w1) in
      let batch := embedded userId attempts in
      let errs := Vectorize.errors locals ++ failedErrors attempts in
      match batch with
      | [] => (w2, Vectorize.mkResult (Vectorize.restored locals) errs)
      | _ :: _ =>
          match fault env (tick w2) with
          | Some e =>
              (logCall (CallUpsert batch (Some e)) w2,
               Vectorize.mkResult (Vectorize.restored locals)
                 (errs ++ map (Vectorize.chunkError e) chunk))
          | None =>
              (mkWorld (upsertAll batch (vectors w)) (memories w)
                       (CallUpsert batch None :: calls w2),
               Vectorize.mkResult (Vectorize.restored locals + length batch) errs)
          end
      end
  end.

(** The loop over the chunks, told as the state it ends in. *)
Definition chunksResult (userId : string) (env : Env) (chunks : list (list D1Memory))
    (s : World * Vectorize.RestoreResult) : World * Vectorize.RestoreResult :=
  foldl (fun s chunk => chunkResult userId env chunk (fst s) (snd s)) s chunks.

(** The rows [getAllMemoriesFromD1] reads for a namespace. *)
Definition rowsOf (userId : string) (w : World) : list D1Memory :=
  Db.selectMemories userId (memories w).

(** A whole pass of the reconciliation, told as the state it ends in. *)
Definition passResult (userId : string) (env : Env) (w : World)
  : World * Vectorize.RestoreResult :=
  let stmt := SelectMemories userId in
  match fault env (tick w) with
  | Some e => (logCall (CallD1 stmt (Some e)) w, Vectorize.mkResult 0 [Vectorize.readError e])
  | None =>
      chunksResult userId env (Vectorize.chunksOf (rowsOf userId w))
        (logCall (CallD1 stmt None) w, Vectorize.mkResult 0 [])
  end.

(** Whether an external call failed: it rejected, or it is an embedding
    call whose reply holds no vector. *)
Definition callFailed (c : Call) : bool :=
  match c with
  | CallAiRun _ reply => match embeddingOutcome reply with inl _ => true | inr _ => false end
  | CallUpsert _ (Some _) | CallGetByIds _ (Some _) | CallDeleteByIds _ (Some _)
  | CallD1 _ (Some _) | CallQuery _ _ _ (QueryThrows _) => true
  | _ => false
  end.

Definition failures (cs : list Call) : nat := length (List.filter callFailed cs).

(** The number of vectors written by the upserts of a history that went
    through. *)
Fixpoint upserted (cs : list Call) : nat :=
  match cs with
  | [] => 0
  | CallUpsert vs None :: rest => length vs + upserted rest
  | _ :: rest => upserted rest
  end.

Definition isEmbeddingCall (c : Call) : bool :=
  match c with CallAiRun _ _ => true | _ => false end.

(** The embedding calls of a history (newest first), oldest first. *)
Definition embeddingCalls (cs : list Call) : list Call :=
  List.filter isEmbeddingCall (rev cs).

(** A call that only reads a store. *)
Definition isRead (c : Call) : bool :=
  match c with
  | CallGetByIds _ _ | CallD1 (SelectMemories _) _ => true
  | _ => false
  end.

(** Worlds and environments used as concrete instances. *)

(** Services that always answer. *)
Definition quietEnv : Env :=
  mkEnv (fun _ _ => AiData [[1%float]]) (fun _ => QueryMatches None) (fun _ => None)
        (fun n => "id-" +:+ pretty n) (fun _ => "2025-01-01T00:00:00.000Z").

(** Services whose [n]-th call alone fails: the embedding service throws,
    the stores reject. *)
Definition failingAt (n : nat) : Env :=
  mkEnv (fun k _ => if k =? n then AiThrows (JS.JsError "AI down") else AiData [[1%float]])
        (fun _ => QueryMatches None)
        (fun k => if k =? n then Some (JS.JsError "store down") else None)
        (fun k => "id-" +:+ pretty k) (fun _ => "2025-01-01T00:00:00.000Z").

(** Two rows of the namespace [u1] with no vector yet. *)
Definition twoRows : list D1Memory := [mkMemory "m1" "first"; mkMemory "m2" "second"].

Definition driftedWorld : World :=
  mkWorld ∅ [mkRow "m2" "u1" "second" 1; mkRow "m1" "u1" "first" 0] [].

(** The shared-identity invariant as the specification words it: no id is
    in the Vector Index without a row in the Relational Store. *)
Definition neverVectorOnly (w : World) : Prop :=
  forall id, is_Some (vectors w !! id) -> Db.hasRow id (memories w) = true.

(** The invariant the store path keeps: no row is in the Relational Store
    without its vector in the Vector Index. *)
Definition neverRowOnly (w : World) : Prop :=
  forall row, In row (memories w) -> is_Some (vectors w !! row_id row).

(** A request to the store path: a plain memory, a plain memory with a
    title, project and tags, or an artifact (its sections and master index). *)
Inductive StoreRequest : Type :=
| AddToMemory (userId thingToRemember : string)
| AddToMemoryTagged (userId thingToRemember : string)
    (title projectName : option string) (tags : option (list string))
| RememberArtifact (userId thingToRemember : string)
    (documentType projectName priority : option string) (tags : option (list string)).

Definition serve (env : Env) (request : StoreRequest) : M World string :=
  match request with
  | AddToMemory userId text => Mcp.add_to_memory userId env text
  | AddToMemoryTagged userId text title projectName tags =>
      McpMemory.add_to_memory userId env text title projectName tags
  | RememberArtifact userId text documentType projectName priority tags =>
      Mcp.remember_artifact userId env text documentType projectName priority tags
  end.

(** The state after a sequence of requests, each run to its end. *)
Fixpoint serveAll (env : Env) (requests : list StoreRequest) (w : World) : World :=
  match requests with
  | [] => w
  | request :: rest => serveAll env rest (finalState (serve env request w))
  end.

(** A computation that keeps an invariant [Inv] whether it returns or
    throws, and establishes [Q] when it returns. *)
Definition hoare {S A : Type} (Inv : S -> Prop) (P : S -> Prop) (m : M S A)
    (Q : A -> S -> Prop) : Prop :=
  forall s, P s ->
    match m s with
    | Returned a s' => Q a s'
    | Thrown _ s' => Inv s'
    end.

(** An index holding one entry, of the namespace [u2]. *)
Definition otherTenantWorld : World :=
  mkWorld {[ "x" := mkEntry [1%float] "u2" "a memory of u2" "memory" ]} [] [].

(** The sections the structural split (step 2) gives: those of the header
    pieces when there is more than one piece. *)
Definition structuralSections (rawText : string) : list Mcp.Section :=
  let headers := Mcp.headerSections rawText in
  if 1 <? length headers
  then omap (fun '(index, section) => Mcp.headerSection index section)
            (imap (fun index section => (index, section)) headers)
  else [].

(** The sections the type-specific fallback (step 3) gives. *)
Definition typeSpecificSections (rawText docType : string) : list Mcp.Section :=
  if String.eqb docType "PRD" then Mcp.prdSections rawText else [].

Definition blankLine : string := JS.LF +:+ JS.LF.

(** The titles "Part 1", ..., "Part n". *)
Definition partTitles (n : nat) : list string :=
  map (fun index => "Part " +:+ JS.showNat (index + 1)) (seq 0 n).

(** The sections made by the paragraph fallback. *)
Definition isPart (s : Mcp.Section) : bool := String.eqb (Mcp.type s) "chunk".

(** Step 4 as the specification words it: when steps 2 and 3 give no
    section, the "Part N" sections are as many as the paragraphs longer than
    50 characters. *)
Definition paragraphFallbackAsStated (rawText docType : string) : Prop :=
  structuralSections rawText = [] ->
  typeSpecificSections rawText docType = [] ->
  map Mcp.title (List.filter isPart (Mcp.parseDocumentSections rawText docType))
  = partTitles (length (List.filter (fun p => 50 <? String.length p)
                                    (JS.split rawText blankLine))).

(** A text of [n] copies of a code unit. *)
Definition copies (n : nat) (c : ascii) : string := string_of_list_ascii (repeat c n).

(** Plain prose: two paragraphs of 80 characters. *)
Definition twoParagraphs : string := copies 80 "a" +:+ blankLine +:+ copies 80 "b".

(** A paragraph of 48 letters and 3 trailing spaces, then one of 80 letters. *)
Definition paddedParagraphs : string :=
  copies 48 "a" +:+ "   " +:+ blankLine +:+ copies 80 "b".

(** Two headers with no body, the first one long. *)
Definition bareHeaders : string := "# " +:+ copies 60 "a" +:+ JS.LF +:+ "# B".

(** The priority the specification gives a section title: its entry in the
    fixed table, 999 for any other title. *)
Definition priorityOf (name : string) : Z :=
  match Reconstruct.ownProperty Reconstruct.order name with
  | Some n => n
  | None => 999%Z
  end.

(** A title that names no property inherited from [Object.prototype]. *)
Definition plainTitle (name : string) : bool :=
  negb (existsb (String.eqb name) Reconstruct.inheritedKeys).

(** The order of the specification: by priority, ties by the title order
    [cmp] ([cmp a b <= 0] when [a] comes first). *)
Definition specBefore (cmp : string -> string -> Z) (a b : Reconstruct.Retrieved) : Prop :=
  (priorityOf (Reconstruct.sectionName a) < priorityOf (Reconstruct.sectionName b))%Z \/
  (priorityOf (Reconstruct.sectionName a) = priorityOf (Reconstruct.sectionName b) /\
   (cmp (Reconstruct.sectionName a) (Reconstruct.sectionName b) <= 0)%Z).

(** An API document with two headers, and the state after
    [remember_artifact] stored it for the project [client]. *)
Definition apiDocument : string :=
  "# constructor" +:+ JS.LF +:+ "Builds the client." +:+ JS.LF +:+
  "# Executive Summary" +:+ JS.LF +:+ "What the client is for.".

Definition apiStored : World :=
  finalState (Mcp.remember_artifact "u1" quietEnv apiDocument (Some "TechnicalSpec")
                (Some "client") None None emptyWorld).

(** Its two sections as a search returns them: the stored contents, under
    the ids the store path gave them. *)
Definition apiMemories : list Vectorize.Memory :=
  omap (fun id => (fun e => Vectorize.mkFound (ent_content e) 0.9 id) <$> vectors apiStored !! id)
       ["id-1"; "id-6"].

(** The two sections once parsed. *)
Definition constructorSection : Reconstruct.Retrieved :=
  Reconstruct.mkRetrieved "constructor" "section" "Builds the client." "id-1".

Definition summarySection : Reconstruct.Retrieved :=
  Reconstruct.mkRetrieved "Executive Summary" "section" "What the client is for." "id-6".

(** A title order used as an instance of [localeCompare]: shorter titles
    first. *)
Definition byLength (a b : string) : Z :=
  (Z.of_nat (String.length a) - Z.of_nat (String.length b))%Z.

(** An engine whose matches all stay at or under the threshold. *)
Definition coldEnv : Env :=
  mkEnv (fun _ _ => AiData [[1%float]])
        (fun _ => QueryMatches (Some [ mkMatch "a" 0.3 (Some "A"); mkMatch "b" 0.5 (Some "B") ]))
        (fun _ => None) (fun _ => "id") (fun _ => "now").

(** * Properties *)

(** ** Strings *)

Lemma append_cons (c : ascii) (a b : string) : String c a +:+ b = String c (a +:+ b).
Proof. reflexivity. Qed.

Lemma append_empty (b : string) : EmptyString +:+ b = b.
Proof. reflexivity. Qed.

Ltac push_append := rewrite ?append_cons, ?append_empty in *.

Lemma startsWith_app (s k : string) :
  JS.startsWith s k = true <-> exists rest, s = k +:+ rest.
Proof.
  unfold JS.startsWith. revert s.
  induction k as [|c k IH]; intros s.
  - destruct s; simpl; (split; [intros _; by eexists | done]).
  - destruct s as [|d s]; simpl.
    + split; [done | intros [rest H]; discriminate].
    + destruct (Ascii.ascii_dec c d) as [->|Hne].
      * rewrite (IH s). split; intros [rest H]; exists rest; push_append; congruence.
      * split; [done | intros [rest H]; push_append; congruence].
Qed.

Lemma includes_cons (c : ascii) (s k : string) :
  JS.includes (String c s) k = JS.startsWith (String c s) k || JS.includes s k.
Proof. reflexivity. Qed.

Lemma includes_empty (k : string) :
  JS.includes EmptyString k = JS.startsWith EmptyString k.
Proof. simpl. apply orb_false_r. Qed.

Lemma includes_app (s k : string) :
  JS.includes s k = true <-> exists before rest, s = before +:+ k +:+ rest.
Proof.
  induction s as [|c s IH].
  - rewrite includes_empty, startsWith_app. split.
    + intros [rest H]. by exists EmptyString, rest.
    + intros [before [rest H]].
      destruct before; push_append; [by exists rest | discriminate].
  - rewrite includes_cons, orb_true_iff, startsWith_app, IH. split.
    + intros [[rest H] | [before [rest H]]].
      * by exists EmptyString, rest.
      * exists (String c before), rest. push_append. by rewrite H.
    + intros [before [rest H]]. destruct before as [|d before]; push_append.
      * left. by exists rest.
      * right. exists before, rest. congruence.
Qed.

Lemma toLowerCase_app (a b : string) :
  JS.toLowerCase (a +:+ b) = JS.toLowerCase a +:+ JS.toLowerCase b.
Proof. induction a as [|c a IH]; push_append; simpl; [done | by rewrite IH]. Qed.

Lemma toLowerCase_split (s a b : string) :
  JS.toLowerCase s = a +:+ b ->
  exists a' b', s = a' +:+ b' /\ JS.toLowerCase a' = a /\ JS.toLowerCase b' = b.
Proof.
  revert s. induction a as [|c a IH]; intros s H; push_append.
  - by exists EmptyString, s.
  - destruct s as [|d s]; simpl in H; [discriminate|].
    injection H as Hc H. destruct (IH s H) as (a' & b' & -> & Ha & Hb).
    exists (String d a'), b'. push_append. simpl. by rewrite Hc, Ha.
Qed.

(** ** Type inference (C7) *)

Lemma includes_present (rawText keyword : string) :
  JS.includes (JS.toLowerCase rawText) keyword = true <-> present keyword rawText.
Proof.
  rewrite includes_app. split.
  - intros (before & rest & H).
    destruct (toLowerCase_split _ _ _ H) as (b' & r' & -> & Hb & Hr).
    destruct (toLowerCase_split _ _ _ Hr) as (k' & r'' & -> & Hk & _).
    by exists b', k', r''.
  - intros (before & stretch & rest & -> & Hk).
    exists (JS.toLowerCase before), (JS.toLowerCase rest).
    by rewrite !toLowerCase_app, Hk.
Qed.

Lemma infers_functional (rawText : string) rules t1 t2 :
  infers rawText rules t1 -> infers rawText rules t2 -> t1 = t2.
Proof.
  intros H1. revert t2. induction H1 as [|kws ty rest kw Hin Hp|kws ty rest ty' Hno _ IH];
    intros t2 H2; inversion H2; subst; try done.
  - exfalso. eapply H4; eauto.
  - exfalso. eapply Hno; eauto.
  - by apply IH.
Qed.

Lemma firstMatch_infers (rawText : string) rules :
  infers rawText rules (firstMatch rules (JS.toLowerCase rawText)).
Proof.
  induction rules as [|[keywords type] rest IH]; simpl; [constructor|].
  destruct (existsb _ keywords) eqn:E.
  - apply existsb_exists in E as (keyword & Hin & Hk).
    apply includes_present in Hk. by eapply infers_first.
  - apply infers_later; [|exact IH].
    intros keyword Hin Hp. apply includes_present in Hp.
    assert (existsb (JS.includes (JS.toLowerCase rawText)) keywords = true)
      by (apply existsb_exists; eauto).
    congruence.
Qed.

Lemma detectDocumentType_firstMatch (rawText : string) :
  Mcp.detectDocumentType rawText = firstMatch typeRules (JS.toLowerCase rawText).
Proof.
  unfold Mcp.detectDocumentType, typeRules, firstMatch, existsb.
  by rewrite !orb_false_r, !orb_assoc.
Qed.

(** C7: with [documentType] omitted, the type used by the decomposition is
    the one inferred by the ordered rule set: the keywords of each rule are
    looked for with letter case ignored, the rules are tried in the listed
    order (PRD, TechnicalSpec, FeatureRequest, Journal), the first rule with
    a keyword present decides, and Documentation is the answer when none
    has. No other type satisfies the rule set. *)
Theorem detectDocumentType_first_matching_rule (rawText : string) :
  infers rawText typeRules (Mcp.finalDocType None rawText) /\
  (forall type, infers rawText typeRules type -> type = Mcp.finalDocType None rawText).
Proof.
  assert (H : infers rawText typeRules (Mcp.finalDocType None rawText)).
  { unfold Mcp.finalDocType, Mcp.orElse.
    rewrite detectDocumentType_firstMatch. apply firstMatch_infers. }
  split; [exact H|]. intros type Ht. exact (infers_functional _ _ _ _ Ht H).
Qed.

Example detectDocumentType_order :
  Mcp.finalDocType None "Our USER Stories and the Architecture" = "PRD" /\
  Mcp.finalDocType None "An API Reference with a user story" = "TechnicalSpec" /\
  Mcp.finalDocType None "my Journal, and a Feature Request" = "FeatureRequest" /\
  Mcp.finalDocType None "my Journal for today" = "Journal" /\
  Mcp.finalDocType None "plain notes" = "Documentation".
Proof. vm_compute. repeat split. Qed.

(** ** Sorting *)

Section SortFacts.
Context {A : Type} (cmp : A -> A -> comparison).

Lemma insertSorted_perm (x : A) (l : list A) : insertSorted cmp x l ≡ₚ x :: l.
Proof.
  induction l as [|y l IH]; simpl; [done|].
  destruct (cmp x y); try done.
  rewrite IH. apply Permutation_swap.
Qed.

Lemma sortWith_perm (l : list A) : sortWith cmp l ≡ₚ l.
Proof.
  induction l as [|x l IH]; simpl; [done|].
  by rewrite insertSorted_perm, IH.
Qed.

End SortFacts.

(** ** Semantic retrieval (C2) *)

Lemma SFcompare_refl (x : spec_float) : x <> S754_nan -> SFcompare x x = Some Eq.
Proof.
  destruct x as [[]|[]| |[] m e]; simpl; try done.
  all: intros _; rewrite Z.compare_refl.
  all: by rewrite ?Pos.compare_cont_refl, ?Pos.compare_refl.
Qed.

(** A score above the threshold is neither zero nor NaN, so [score || 0]
    leaves it as it is. *)
Lemma above_threshold_orZero (s : float) :
  PrimFloat.ltb Vectorize.MINIMUM_SIMILARITY_SCORE s = true -> Vectorize.orZero s = s.
Proof.
  unfold Vectorize.MINIMUM_SIMILARITY_SCORE. intros H.
  rewrite FloatAxioms.ltb_spec in H.
  unfold Vectorize.orZero, is_zero, is_nan. rewrite !FloatAxioms.eqb_spec.
  change (Prim2SF 0.5) with (S754_finite false 4503599627370496 (-53)) in H.
  change (Prim2SF zero) with (S754_zero false).
  unfold SFltb, SFeqb in *.
  destruct (Prim2SF s) as [[]|[]| |[] m e] eqn:E; try done.
  all: by rewrite SFcompare_refl.
Qed.

Lemma searchMemories_results query userId env filters w results w' :
  Vectorize.searchMemories query userId env filters w = Returned results w' ->
  exists ms, results ≡ₚ map Vectorize.toMemory (aboveThreshold ms) /\
             (VECTORIZE_query env (S (tick w)) = QueryMatches (Some ms) \/ ms = []).
Proof.
  unfold Vectorize.searchMemories, Vectorize.generateEmbeddings, bind, AI_run_bge_m3,
    VECTORIZE_query_, ret, throw.
  destruct (AI_run env (tick w) query) as [e|[|values data]]; try done.
  unfold tick at 1. simpl. fold (tick w).
  destruct (VECTORIZE_query env (S (tick w))) as [e|[[|m ms]|]] eqn:Q; try done.
  - intros [= <- _]. exists []. split; [done | by right].
  - intros [= <- _]. exists (m :: ms). split; [|by left].
    apply sortWith_perm.
  - intros [= <- _]. exists []. split; [done | by right].
Qed.

(** C2: every element of the list returned by a search has a similarity
    score strictly greater than the threshold 0.5, and is the image of a
    match of the engine that passed the filter; with the synthetic scores
    0.3, 0.5, 0.51 and 0.9 only the matches of 0.9 and 0.51 are returned. *)
Theorem searchMemories_above_threshold :
  (forall query userId env filters w results w',
     Vectorize.searchMemories query userId env filters w = Returned results w' ->
     forall m, In m results ->
       PrimFloat.ltb 0.5 (Vectorize.found_score m) = true) /\
  (forall w,
     exists w', Vectorize.searchMemories "q" "u1" syntheticEnv None w
       = Returned [Vectorize.mkFound "D" 0.9 "d"; Vectorize.mkFound "C" 0.51 "c"] w').
Proof.
  split.
  - intros query userId env filters w results w' H m Hm.
    destruct (searchMemories_results _ _ _ _ _ _ _ H) as (ms & Hperm & _).
    apply (Permutation_in _ Hperm) in Hm.
    apply in_map_iff in Hm as (mt & <- & Hmt).
    apply filter_In in Hmt as [_ Hmt].
    simpl. by rewrite above_threshold_orZero.
  - intros w. eexists. vm_compute. reflexivity.
Qed.

Lemma searchMemories_above_threshold_witness :
  PrimFloat.ltb 0.5 (Vectorize.found_score (Vectorize.mkFound "C" 0.51 "c")) = true.
Proof.
  refine (proj1 searchMemories_above_threshold "q" "u1" syntheticEnv None emptyWorld
            _ _ _ (Vectorize.mkFound "C" 0.51 "c") _).
  - vm_compute. reflexivity.
  - simpl. tauto.
Defined.

(** ** Reconciliation, run symbolically *)

Lemma generateEmbeddings_run (text : string) (env : Env) (w : World) :
  Vectorize.generateEmbeddings text env w =
    let reply := AI_run env (tick w) text in
    match embeddingOutcome reply with
    | inr values => Returned values (logCall (CallAiRun text reply) w)
    | inl e => Thrown e (logCall (CallAiRun text reply) w)
    end.
Proof.
  unfold Vectorize.generateEmbeddings, bind, AI_run_bge_m3, embeddingOutcome.
  by destruct (AI_run env (tick w) text) as [e|[|values data]].
Qed.

Lemma embedMissing_run (userId : string) (env : Env) (missing : list D1Memory) :
  forall vs w locals,
    Vectorize.embedMissing userId env missing vs (w, locals) =
      let attempts := attemptsFrom env (tick w) missing in
      Returned (vs ++ embedded userId attempts)
        (mkWorld (vectors w) (memories w) (rev (aiCalls attempts) ++ calls w),
         Vectorize.mkResult (Vectorize.restored locals)
           (Vectorize.errors locals ++ failedErrors attempts)).
Proof.
  induction missing as [|memory rest IH]; intros vs [index rows cs] [n errs]; simpl.
  - unfold ret. by rewrite !app_nil_r.
  - unfold bind at 1, tryCatch, bind at 1, lift. simpl.
    rewrite generateEmbeddings_run. simpl.
    unfold embedded, failedErrors. simpl.
    destruct (embeddingOutcome _) as [e|values]; simpl.
    + unfold Vectorize.pushError, assign, bind, ret. simpl.
      rewrite IH. simpl. unfold tick. simpl.
      by rewrite <- !app_assoc.
    + unfold ret. rewrite IH. simpl. unfold tick. simpl.
      by rewrite <- !app_assoc.
Qed.

Lemma missingFrom_getByIds (index : gmap string VectorEntry) (chunk : list D1Memory) :
  Vectorize.missingFrom
    (omap (fun id => vectorOf id <$> index !! id) (map mem_id chunk)) chunk
  = missingIn index chunk.
Proof.
  unfold Vectorize.missingFrom, missingIn.
  apply filter_ext_in. intros memory Hin.
  apply eq_true_iff_eq. rewrite negb_true_iff, bool_decide_eq_false, bool_decide_eq_true.
  rewrite elem_of_list_to_set, list_elem_of_fmap.
  split.
  - intros Hno. destruct (index !! mem_id memory) as [entry|] eqn:E; [|done].
    exfalso. apply Hno. exists (vectorOf (mem_id memory) entry). split; [done|].
    apply list_elem_of_omap. exists (mem_id memory). split.
    + apply list_elem_of_fmap. exists memory. split; [done|]. by apply list_elem_of_In.
    + by rewrite E.
  - intros Hnone (v & Hid & Hv).
    apply list_elem_of_omap in Hv as (id & _ & Hv).
    destruct (index !! id) as [entry|] eqn:E; simpl in Hv; [|done].
    injection Hv as <-. simpl in Hid. congruence.
Qed.

Lemma pushErrors_run (es : list Vectorize.RestoreError) (w : World)
    (locals : Vectorize.RestoreResult) :
  Vectorize.pushErrors es (w, locals) =
    Returned tt (w, Vectorize.mkResult (Vectorize.restored locals)
                                       (Vectorize.errors locals ++ es)).
Proof.
  revert locals. induction es as [|e es IH]; intros [n errs]; simpl.
  - unfold ret. by rewrite app_nil_r.
  - unfold bind, Vectorize.pushError, assign. simpl. rewrite IH. simpl.
    by rewrite <- app_assoc.
Qed.

Lemma processChunk_run (userId : string) (env : Env) (chunk : list D1Memory)
    (w : World) (locals : Vectorize.RestoreResult) :
  Vectorize.processChunk userId env chunk (w, locals)
  = Returned tt (chunkResult userId env chunk w locals).
Proof.
  unfold Vectorize.processChunk, tryCatch, Vectorize.restoreChunk, chunkResult.
  unfold bind at 1, lift at 1, VECTORIZE_getByIds. cbn [fst snd].
  destruct (fault env (tick w)) as [e|] eqn:F.
  { by rewrite pushErrors_run. }
  rewrite missingFrom_getByIds. cbv zeta.
  set (w1 := logCall _ w).
  change (vectors w) with (vectors w1). change (memories w) with (memories w1).
  generalize (missingIn (vectors w1) chunk) as missing. intros missing.
  destruct missing as [|memory rest].
  { simpl. unfold ret. destruct locals as [n errs]. simpl. by rewrite app_nil_r. }
  cbv beta iota. set (missing := memory :: rest).
  unfold bind at 1. rewrite embedMissing_run. cbv zeta.
  rewrite app_nil_l.
  set (attempts := attemptsFrom env (tick w1) missing).
  destruct (embedded userId attempts) as [|v batch] eqn:Hbatch.
  { by unfold ret. }
  unfold bind, lift, VECTORIZE_upsert, Vectorize.addRestored, assign.
  cbn [fst snd vectors memories Vectorize.restored Vectorize.errors].
  set (w2 := mkWorld _ _ (rev (aiCalls attempts) ++ calls w1)).
  destruct (fault env (tick w2)) as [e|] eqn:F2.
  - rewrite pushErrors_run. reflexivity.
  - reflexivity.
Qed.

Lemma processChunks_run (userId : string) (env : Env) (chunks : list (list D1Memory)) :
  forall s, Vectorize.processChunks userId env chunks s
            = Returned tt (chunksResult userId env chunks s).
Proof.
  unfold chunksResult.
  induction chunks as [|chunk rest IH]; intros [w locals]; simpl; [done|].
  unfold bind. by rewrite processChunk_run, IH.
Qed.

Lemma chunksOf_nil : Vectorize.chunksOf [] = [].
Proof. reflexivity. Qed.

Lemma restoreWithLocals_run (userId : string) (env : Env) (w : World) :
  Vectorize.restoreWithLocals userId env (w, Vectorize.mkResult 0 [])
  = Returned tt (passResult userId env w).
Proof.
  unfold Vectorize.restoreWithLocals, tryCatch, bind, lift, Db.getAllMemoriesFromD1,
    passResult.
  cbn [fst snd].
  destruct (fault env (tick w)) as [e|]; [done|].
  fold (rowsOf userId w).
  destruct (rowsOf userId w) as [|memory rest] eqn:E.
  - by rewrite chunksOf_nil.
  - by rewrite processChunks_run.
Qed.

(** The pass always returns, with the locals it ended with. *)
Lemma restore_run (userId : string) (env : Env) (w : World) :
  Vectorize.restoreMissingMemoriesToVectorize userId env w
  = Returned (snd (passResult userId env w)) (fst (passResult userId env w)).
Proof.
  unfold Vectorize.restoreMissingMemoriesToVectorize.
  rewrite restoreWithLocals_run. by destruct (passResult userId env w).
Qed.

(** ** Chunks *)

Lemma chunksOf_concat (rows : list D1Memory) : concat (Vectorize.chunksOf rows) = rows.
Proof.
  unfold Vectorize.chunksOf, Vectorize.slice, Vectorize.CHUNK_SIZE.
  set (n := (length rows + (10 - 1)) / 10).
  assert (Hn : length rows <= n * 10).
  { unfold n. pose proof (Nat.div_mod_eq (length rows + (10 - 1)) 10) as H.
    pose proof (Nat.mod_upper_bound (length rows + (10 - 1)) 10). lia. }
  assert (H : forall k, concat (map (fun k => take (k * 10 + 10 - k * 10) (drop (k * 10) rows))
                                    (seq 0 k)) = take (k * 10) rows).
  { induction k as [|k IH]; [done|].
    rewrite seq_S, map_app, concat_app, IH. simpl.
    rewrite app_nil_r. replace (k * 10 + 10 - k * 10) with 10 by lia.
    rewrite take_take_drop. f_equal. lia. }
  rewrite H. by apply take_ge.
Qed.

Lemma chunksOf_nonempty (rows : list D1Memory) (chunk : list D1Memory) :
  In chunk (Vectorize.chunksOf rows) -> chunk <> [].
Proof.
  unfold Vectorize.chunksOf, Vectorize.slice, Vectorize.CHUNK_SIZE.
  intros H. apply in_map_iff in H as (k & <- & Hk). apply in_seq in Hk.
  assert (k * 10 < length rows).
  { pose proof (Nat.div_mod_eq (length rows + (10 - 1)) 10) as H.
    pose proof (Nat.mod_upper_bound (length rows + (10 - 1)) 10). lia. }
  intros E. apply (f_equal length) in E. rewrite length_take, length_drop in E.
  simpl in E. lia.
Qed.

(** ** Attempts *)

Lemma attemptsFrom_rows (env : Env) (missing : list D1Memory) :
  forall n, map fst (attemptsFrom env n missing) = missing.
Proof. induction missing as [|m rest IH]; intros n; simpl; [done | by rewrite IH]. Qed.

Lemma failures_app (a b : list Call) : failures (a ++ b) = failures a + failures b.
Proof. unfold failures. by rewrite List.filter_app, length_app. Qed.

Lemma failures_cons (c : Call) (cs : list Call) :
  failures (c :: cs) = (if callFailed c then 1 else 0) + failures cs.
Proof. unfold failures. simpl. by destruct (callFailed c). Qed.

Lemma failures_nil : failures [] = 0.
Proof. reflexivity. Qed.

Lemma failures_rev (cs : list Call) : failures (rev cs) = failures cs.
Proof. unfold failures. by rewrite List.filter_rev, length_rev. Qed.

Lemma failures_attempts (attempts : list (D1Memory * AiReply)) :
  failures (aiCalls attempts) = length (failedErrors attempts).
Proof.
  unfold failures, aiCalls, failedErrors.
  induction attempts as [|[m reply] rest IH]; simpl; [done|].
  destruct (embeddingOutcome reply); simpl; by rewrite IH.
Qed.

Lemma upserted_app (a b : list Call) : upserted (a ++ b) = upserted a + upserted b.
Proof.
  induction a as [|c a IH]; simpl; [done|].
  destruct c as [| | |vs [e|]| | | |]; simpl; lia.
Qed.

Lemma upserted_attempts (attempts : list (D1Memory * AiReply)) :
  upserted (rev (aiCalls attempts)) = 0.
Proof.
  unfold aiCalls. induction attempts as [|a rest IH]; simpl; [done|].
  rewrite upserted_app, IH. done.
Qed.

(** When no attempt failed, every row attempted has its vector in the
    batch. *)
Lemma embedded_all (userId : string) (attempts : list (D1Memory * AiReply)) :
  failedErrors attempts = [] ->
  map vec_id (embedded userId attempts) = map mem_id (map fst attempts).
Proof.
  unfold failedErrors, embedded.
  induction attempts as [|[m reply] rest IH]; simpl; [done|].
  destruct (embeddingOutcome reply); simpl; [done|].
  intros H. f_equal. by apply IH.
Qed.

Lemma upsertAll_is_Some (vs : list VectorizeVector) :
  forall (index : gmap string VectorEntry) (id : string),
    is_Some (upsertAll vs index !! id) <-> In id (map vec_id vs) \/ is_Some (index !! id).
Proof.
  unfold upsertAll. induction vs as [|v vs IH]; intros index id; simpl.
  - tauto.
  - rewrite IH. destruct (decide (vec_id v = id)) as [->|Hne].
    + rewrite lookup_insert_eq. split; [intros _; by left; left | intros _; right; eauto].
    + rewrite lookup_insert_ne by done. tauto.
Qed.

Lemma missingIn_or_present (index : gmap string VectorEntry) (chunk : list D1Memory)
    (m : D1Memory) :
  In m chunk -> In m (missingIn index chunk) \/ is_Some (index !! mem_id m).
Proof.
  intros Hin. unfold missingIn. rewrite filter_In, bool_decide_eq_true.
  destruct (index !! mem_id m); [right; eauto | left; done].
Qed.

Ltac chunk_goal chunk :=
  try done; try lia;
  try lazymatch goal with
  | |- _ ++ _ = _ => by rewrite <- ?app_assoc
  | |- _ :: _ ++ _ = _ => cbn [app]; by rewrite <- ?app_assoc
  | |- chunk <> [] -> _ <= _ => intros ?; destruct chunk; [done | simpl; lia]
  | |- _ = 0 -> _ = [] => intros ?
  end.

(** What one turn of the chunk loop does to the history, the error list,
    the counter and the index. *)
Lemma chunkResult_anatomy (userId : string) (env : Env) (chunk : list D1Memory)
    (w : World) (locals : Vectorize.RestoreResult) :
  let s' := chunkResult userId env chunk w locals in
  exists new errs,
    calls (fst s') = new ++ calls w /\
    Vectorize.errors (snd s') = Vectorize.errors locals ++ errs /\
    memories (fst s') = memories w /\
    Vectorize.restored (snd s') = Vectorize.restored locals + upserted new /\
    (chunk <> [] -> failures new <= length errs) /\
    (failures new = 0 -> errs = []) /\
    (forall id, is_Some (vectors w !! id) -> is_Some (vectors (fst s') !! id)) /\
    (errs = [] -> forall m, In m chunk -> is_Some (vectors (fst s') !! mem_id m)) /\
    (missingIn (vectors w) chunk = [] ->
       vectors (fst s') = vectors w /\ forallb isRead new = true /\ upserted new = 0).
Proof.
  unfold chunkResult.
  destruct (fault env (tick w)) as [e|] eqn:Hcheck.
  { (* the existence check rejects *)
    exists [CallGetByIds (map mem_id chunk) (Some e)], (map (Vectorize.chunkError e) chunk).
    cbn [fst snd calls memories vectors logCall Vectorize.errors Vectorize.restored].
    rewrite failures_cons, failures_nil, length_map. cbn [callFailed upserted].
    repeat split; chunk_goal chunk.
    intros Herrs m Hin. destruct chunk; [done | discriminate]. }
  cbv zeta. set (w1 := logCall _ w).
  set (attempts := attemptsFrom env (tick w1) (missingIn (vectors w) chunk)).
  set (w2 := mkWorld _ _ (rev (aiCalls attempts) ++ calls w1)).
  assert (Hcover : failedErrors attempts = [] ->
            forall m, In m chunk ->
              In (mem_id m) (map vec_id (embedded userId attempts))
              \/ is_Some (vectors w !! mem_id m)).
  { intros Hok m Hin. rewrite (embedded_all _ _ Hok).
    unfold attempts. rewrite attemptsFrom_rows.
    destruct (missingIn_or_present (vectors w) chunk m Hin) as [Hm|Hp]; [left|by right].
    by apply in_map. }
  assert (Hnone : missingIn (vectors w) chunk = [] -> attempts = []).
  { unfold attempts. by intros ->. }
  assert (Hzero : length (failedErrors attempts) = 0 -> failedErrors attempts = []).
  { by destruct (failedErrors attempts). }
  destruct (embedded userId attempts) as [|v batch] eqn:Hbatch.
  { (* nothing to upsert *)
    exists (rev (aiCalls attempts) ++ [CallGetByIds (map mem_id chunk) None]),
           (failedErrors attempts).
    cbn [fst snd calls memories vectors logCall Vectorize.errors Vectorize.restored w1 w2].
    rewrite failures_app, failures_rev, failures_attempts, failures_cons, failures_nil.
    rewrite upserted_app, upserted_attempts. cbn [callFailed upserted].
    repeat split; chunk_goal chunk.
    - apply Hzero. lia.
    - intros Hok m Hin. destruct (Hcover Hok m Hin) as [[]|Hp]; done.
    - match goal with H : missingIn _ _ = [] |- _ => by rewrite (Hnone H) end. }
  destruct (fault env (tick w2)) as [e|] eqn:Hupsert.
  { (* the batch upsert rejects *)
    exists (CallUpsert (v :: batch) (Some e) :: rev (aiCalls attempts)
              ++ [CallGetByIds (map mem_id chunk) None]),
           (failedErrors attempts ++ map (Vectorize.chunkError e) chunk).
    cbn [fst snd calls memories vectors logCall Vectorize.errors Vectorize.restored w1 w2].
    rewrite failures_cons, failures_app, failures_rev, failures_attempts, failures_cons,
      failures_nil, length_app, length_map.
    cbn [upserted]. rewrite upserted_app, upserted_attempts. cbn [callFailed upserted].
    repeat split; chunk_goal chunk.
    - intros Herrs. apply app_eq_nil in Herrs as [_ Herrs].
      intros m Hin. destruct chunk; [done | discriminate].
    - match goal with H : missingIn _ _ = [] |- _ => by rewrite (Hnone H) in Hbatch end. }
  (* the batch upsert goes through *)
  exists (CallUpsert (v :: batch) None :: rev (aiCalls attempts)
            ++ [CallGetByIds (map mem_id chunk) None]),
         (failedErrors attempts).
  cbn [fst snd calls memories vectors logCall Vectorize.errors Vectorize.restored w1 w2].
  rewrite failures_cons, failures_app, failures_rev, failures_attempts, failures_cons,
    failures_nil.
  cbn [upserted]. rewrite upserted_app, upserted_attempts. cbn [callFailed upserted].
  repeat split; chunk_goal chunk.
  - apply Hzero. lia.
  - intros id Hid. apply upsertAll_is_Some. by right.
  - intros Hok m Hin. apply upsertAll_is_Some. by apply Hcover.
  - match goal with H : missingIn _ _ = [] |- _ => by rewrite (Hnone H) in Hbatch end.
  - match goal with H : missingIn _ _ = [] |- _ => by rewrite (Hnone H) in Hbatch end.
  - match goal with H : missingIn _ _ = [] |- _ => by rewrite (Hnone H) in Hbatch end.
Qed.

Lemma missingIn_nil (index : gmap string VectorEntry) (chunk : list D1Memory) :
  (forall m, In m chunk -> is_Some (index !! mem_id m)) -> missingIn index chunk = [].
Proof.
  intros H. unfold missingIn.
  induction chunk as [|m chunk IH]; simpl; [done|].
  destruct (H m) as [entry Hentry]; [by left|].
  rewrite Hentry. simpl. apply IH. intros m' Hin. apply H. by right.
Qed.

(** The same account for the whole loop over non-empty chunks. *)
Lemma chunksResult_anatomy (userId : string) (env : Env) (chunks : list (list D1Memory)) :
  (forall chunk, In chunk chunks -> chunk <> []) ->
  forall s,
  let s' := chunksResult userId env chunks s in
  exists new errs,
    calls (fst s') = new ++ calls (fst s) /\
    Vectorize.errors (snd s') = Vectorize.errors (snd s) ++ errs /\
    memories (fst s') = memories (fst s) /\
    Vectorize.restored (snd s') = Vectorize.restored (snd s) + upserted new /\
    failures new <= length errs /\
    (failures new = 0 -> errs = []) /\
    (forall id, is_Some (vectors (fst s) !! id) -> is_Some (vectors (fst s') !! id)) /\
    (errs = [] -> forall chunk m, In chunk chunks -> In m chunk ->
                  is_Some (vectors (fst s') !! mem_id m)) /\
    ((forall chunk m, In chunk chunks -> In m chunk -> is_Some (vectors (fst s) !! mem_id m)) ->
       vectors (fst s') = vectors (fst s) /\ forallb isRead new = true /\ upserted new = 0).
Proof.
  unfold chunksResult.
  induction chunks as [|chunk rest IH]; intros Hne [w locals]; cbn [foldl fst snd].
  - exists [], []. rewrite app_nil_r. simpl. repeat split; try done; lia.
  - destruct (chunkResult_anatomy userId env chunk w locals)
      as (new1 & errs1 & Hc1 & He1 & Hm1 & Hr1 & Hf1 & Hz1 & Hmono1 & Hcov1 & Hnoop1).
    specialize (Hf1 (Hne chunk (or_introl eq_refl))).
    destruct (IH (fun c Hc => Hne c (or_intror Hc))
                 (chunkResult userId env chunk w locals))
      as (new2 & errs2 & Hc2 & He2 & Hm2 & Hr2 & Hf2 & Hz2 & Hmono2 & Hcov2 & Hnoop2).
    exists (new2 ++ new1), (errs1 ++ errs2).
    rewrite failures_app, upserted_app, length_app.
    split; [by rewrite Hc2, Hc1, app_assoc|].
    split; [by rewrite He2, He1, app_assoc|].
    split; [by rewrite Hm2, Hm1|].
    split; [rewrite Hr2, Hr1; lia|].
    split; [lia|].
    split; [intros H; rewrite Hz1, Hz2 by lia; done|].
    split; [intros id Hid; by apply Hmono2, Hmono1|].
    split.
    + intros Herrs c m Hc Hm. apply app_eq_nil in Herrs as [Herrs1 Herrs2].
      destruct Hc as [<-|Hc].
      * apply Hmono2. by apply Hcov1.
      * by apply (Hcov2 Herrs2 c m).
    + intros Hall.
      destruct Hnoop1 as (Hv1 & Hrd1 & Hu1).
      { apply missingIn_nil. intros m Hm. apply (Hall chunk m); [by left | done]. }
      destruct Hnoop2 as (Hv2 & Hrd2 & Hu2).
      { intros c m Hc Hm. rewrite Hv1. apply (Hall c m); [by right | done]. }
      split; [by rewrite Hv2, Hv1|].
      split; [by rewrite forallb_app, Hrd1, Hrd2 | lia].
Qed.

(** The account of a whole pass. *)
Lemma passResult_anatomy (userId : string) (env : Env) (w : World) :
  let s' := passResult userId env w in
  exists new,
    calls (fst s') = new ++ calls w /\
    memories (fst s') = memories w /\
    Vectorize.restored (snd s') = upserted new /\
    failures new <= length (Vectorize.errors (snd s')) /\
    (failures new = 0 -> Vectorize.errors (snd s') = []) /\
    (forall id, is_Some (vectors w !! id) -> is_Some (vectors (fst s') !! id)) /\
    (Vectorize.errors (snd s') = [] ->
       forall m, In m (rowsOf userId w) -> is_Some (vectors (fst s') !! mem_id m)) /\
    ((forall m, In m (rowsOf userId w) -> is_Some (vectors w !! mem_id m)) ->
       vectors (fst s') = vectors w /\ forallb isRead new = true /\
       Vectorize.restored (snd s') = 0).
Proof.
  unfold passResult.
  destruct (fault env (tick w)) as [e|] eqn:Hread.
  { exists [CallD1 (SelectMemories userId) (Some e)].
    cbn [fst snd calls memories vectors logCall Vectorize.errors Vectorize.restored].
    rewrite failures_cons, failures_nil. cbn [callFailed upserted length].
    repeat split; try done; lia. }
  set (rows := rowsOf userId w).
  assert (Hin : forall m, In m rows -> exists chunk, In chunk (Vectorize.chunksOf rows) /\ In m chunk).
  { intros m Hm. rewrite <- (chunksOf_concat rows) in Hm.
    apply in_concat in Hm as (chunk & Hc & Hm). eauto. }
  destruct (chunksResult_anatomy userId env (Vectorize.chunksOf rows)
              (chunksOf_nonempty rows)
              (logCall (CallD1 (SelectMemories userId) None) w, Vectorize.mkResult 0 []))
    as (new & errs & Hc & He & Hm & Hr & Hf & Hz & Hmono & Hcov & Hnoop).
  cbn [fst snd calls memories vectors logCall Vectorize.errors Vectorize.restored app] in *.
  exists (new ++ [CallD1 (SelectMemories userId) None]).
  rewrite failures_app, failures_cons, failures_nil, upserted_app, forallb_app.
  cbn [callFailed upserted forallb isRead].
  split; [by rewrite Hc, <- app_assoc|].
  split; [done|].
  split; [lia|].
  split; [rewrite He; lia|].
  split; [intros H; rewrite He, Hz by lia; done|].
  split; [done|].
  split.
  - rewrite He. intros Herrs m Hrow. destruct (Hin m Hrow) as (chunk & Hchunk & Hmc).
    by apply (Hcov Herrs chunk m).
  - intros Hall. destruct Hnoop as (Hv & Hrd & Hu).
    { intros chunk m Hchunk Hmc. apply Hall.
      rewrite <- (chunksOf_concat rows). apply in_concat. eauto. }
    split; [done|]. split; [by rewrite Hrd | lia].
Qed.

(** ** Reconciliation (C5, C6, C10) *)

Lemma embeddingCalls_attempts (attempts : list (D1Memory * AiReply)) :
  List.filter isEmbeddingCall (aiCalls attempts) = aiCalls attempts.
Proof.
  unfold aiCalls. induction attempts as [|a rest IH]; simpl; [done | by rewrite IH].
Qed.

Lemma failedErrors_In (attempts : list (D1Memory * AiReply)) memory reply error :
  In (memory, reply) attempts -> embeddingOutcome reply = inl error ->
  In (Vectorize.embeddingError memory error) (failedErrors attempts).
Proof.
  unfold failedErrors. intros Hin Hout.
  apply list_elem_of_In, list_elem_of_omap. exists (memory, reply).
  split; [by apply list_elem_of_In | simpl; by rewrite Hout].
Qed.

Lemma embedded_In (userId : string) (attempts : list (D1Memory * AiReply)) v :
  In v (embedded userId attempts) ->
  exists memory reply values,
    In (memory, reply) attempts /\ embeddingOutcome reply = inr values /\
    v = Vectorize.restoredVector userId memory values.
Proof.
  unfold embedded. intros Hin.
  apply list_elem_of_In, list_elem_of_omap in Hin as ([memory reply] & Hin & Hv).
  simpl in Hv. destruct (embeddingOutcome reply) as [e|values] eqn:E; [done|].
  injection Hv as <-. exists memory, reply, values.
  split; [by apply list_elem_of_In | done].
Qed.

Lemma aiCalls_no_upsert (attempts : list (D1Memory * AiReply)) vs outcome :
  ~ In (CallUpsert vs outcome) (rev (aiCalls attempts)).
Proof.
  rewrite <- in_rev. unfold aiCalls. intros H.
  apply in_map_iff in H as (a & Ha & _). discriminate.
Qed.

Lemma embeddingCalls_chunk (attempts : list (D1Memory * AiReply)) (g : Call)
    (pre : list Call) :
  forallb (fun c => negb (isEmbeddingCall c)) (g :: pre) = true ->
  embeddingCalls (pre ++ rev (aiCalls attempts) ++ [g]) = aiCalls attempts.
Proof.
  simpl. intros H. apply andb_true_iff in H as [Hg Hpre]. apply negb_true_iff in Hg.
  unfold embeddingCalls. rewrite !rev_app_distr, rev_involutive. simpl.
  rewrite Hg, List.filter_app, embeddingCalls_attempts.
  assert (E : List.filter isEmbeddingCall (rev pre) = []).
  { rewrite List.filter_rev.
    induction pre as [|c pre IH]; simpl in *; [done|].
    apply andb_true_iff in Hpre as [Hc Hpre]. apply negb_true_iff in Hc.
    rewrite Hc. by rewrite (IH Hpre). }
  by rewrite E, app_nil_r.
Qed.

(** C6: in one turn of the chunk loop whose existence check is answered,
    each missing row gets exactly one embedding call (none is retried);
    every failed call is recorded as an error entry with the row's id and
    the reason; the batch upsert, when there is one, carries exactly the
    vectors of the rows whose call succeeded; and [restored] grows by the
    size of the batch only when that upsert went through. Over a whole
    pass, [restored] is the number of vectors written by the upserts that
    went through. *)
Theorem reconcile_embedding_failures (userId : string) (env : Env) (chunk : list D1Memory)
    (w : World) (locals : Vectorize.RestoreResult) :
  fault env (tick w) = None ->
  let attempts := attemptsFrom env (S (tick w)) (missingIn (vectors w) chunk) in
  (exists w' locals' new,
     Vectorize.processChunk userId env chunk (w, locals) = Returned tt (w', locals') /\
     calls w' = new ++ calls w /\
     embeddingCalls new = aiCalls attempts /\
     (forall memory reply error,
        In (memory, reply) attempts -> embeddingOutcome reply = inl error ->
        In (Vectorize.mkError (mem_id memory)
              ("Failed to generate embedding: " +:+ JS.errorMessage error))
           (Vectorize.errors locals')) /\
     (forall vs outcome, In (CallUpsert vs outcome) new -> vs = embedded userId attempts) /\
     (forall v, In v (embedded userId attempts) ->
        exists memory reply values,
          In (memory, reply) attempts /\ embeddingOutcome reply = inr values /\
          v = Vectorize.restoredVector userId memory values) /\
     Vectorize.restored locals' = Vectorize.restored locals + upserted new) /\
  (forall w0, exists result w0' new0,
     Vectorize.restoreMissingMemoriesToVectorize userId env w0 = Returned result w0' /\
     calls w0' = new0 ++ calls w0 /\
     Vectorize.restored result = upserted new0).
Proof.
  intros Hcheck attempts. split.
  2:{ intros w0. rewrite restore_run.
      destruct (passResult_anatomy userId env w0) as (new0 & Hc & _ & Hr & _).
      by exists (snd (passResult userId env w0)), (fst (passResult userId env w0)), new0. }
  rewrite processChunk_run. unfold chunkResult. rewrite Hcheck. cbv zeta.
  set (w1 := logCall _ w).
  change (tick w1) with (S (tick w)). fold attempts.
  set (w2 := mkWorld _ _ (rev (aiCalls attempts) ++ calls w1)).
  assert (Hrec : forall errs memory reply error,
            In (memory, reply) attempts -> embeddingOutcome reply = inl error ->
            In (Vectorize.mkError (mem_id memory)
                  ("Failed to generate embedding: " +:+ JS.errorMessage error))
               ((Vectorize.errors locals ++ failedErrors attempts) ++ errs)).
  { intros errs memory reply error Hin Hout.
    apply in_or_app. left. apply in_or_app. right.
    by apply (failedErrors_In attempts memory reply error). }
  destruct (embedded userId attempts) as [|v batch] eqn:Hbatch.
  { eexists _, _, (rev (aiCalls attempts) ++ [CallGetByIds (map mem_id chunk) None]).
    split; [reflexivity|].
    cbn [calls w2 w1 logCall Vectorize.errors Vectorize.restored].
    split; [by rewrite <- app_assoc|].
    split; [by apply (embeddingCalls_chunk attempts _ [])|].
    split; [intros memory reply error Hin Hout;
            specialize (Hrec [] memory reply error Hin Hout); by rewrite app_nil_r in Hrec|].
    split.
    { intros vs outcome Hin. apply in_app_or in Hin as [Hin|[Hin|[]]]; [|done].
      by apply aiCalls_no_upsert in Hin. }
    split; [done|].
    rewrite upserted_app, upserted_attempts. simpl. lia. }
  assert (Hemb : forall v', In v' (v :: batch) ->
            exists memory reply values,
              In (memory, reply) attempts /\ embeddingOutcome reply = inr values /\
              v' = Vectorize.restoredVector userId memory values).
  { rewrite <- Hbatch. apply embedded_In. }
  assert (Hups : forall vs outcome o,
            In (CallUpsert vs outcome)
               (CallUpsert (v :: batch) o :: rev (aiCalls attempts)
                  ++ [CallGetByIds (map mem_id chunk) None]) -> vs = v :: batch).
  { intros vs outcome o [Hin|Hin]; [congruence|].
    apply in_app_or in Hin as [Hin|[Hin|[]]]; [|done].
    by apply aiCalls_no_upsert in Hin. }
  destruct (fault env (tick w2)) as [e|] eqn:Hupsert.
  - eexists _, _, (CallUpsert (v :: batch) (Some e) :: rev (aiCalls attempts)
                     ++ [CallGetByIds (map mem_id chunk) None]).
    split; [reflexivity|].
    cbn [calls w2 w1 logCall Vectorize.errors Vectorize.restored].
    split; [cbn [app]; by rewrite <- app_assoc|].
    split; [by apply (embeddingCalls_chunk attempts _ [_])|].
    split; [apply Hrec|].
    split; [intros vs outcome; apply Hups|].
    split; [done|].
    cbn [upserted]. rewrite upserted_app, upserted_attempts. simpl. lia.
  - eexists _, _, (CallUpsert (v :: batch) None :: rev (aiCalls attempts)
                     ++ [CallGetByIds (map mem_id chunk) None]).
    split; [reflexivity|].
    cbn [calls w2 w1 logCall Vectorize.errors Vectorize.restored].
    split; [cbn [app]; by rewrite <- app_assoc|].
    split; [by apply (embeddingCalls_chunk attempts _ [_])|].
    split; [intros memory reply error Hin Hout;
            specialize (Hrec [] memory reply error Hin Hout); by rewrite app_nil_r in Hrec|].
    split; [intros vs outcome; apply Hups|].
    split; [done|].
    cbn [upserted]. rewrite upserted_app, upserted_attempts. simpl. lia.
Qed.

(** C10: whatever fails among the relational read, the existence checks,
    the embedding calls and the upserts, the reconciliation returns a
    [{restored, errors}] record and never throws; the error list has at
    least one entry per failed call, and has an entry only if a call
    failed. *)
Theorem reconcile_never_throws (userId : string) (env : Env) (w : World) :
  exists result w' new,
    Vectorize.restoreMissingMemoriesToVectorize userId env w = Returned result w' /\
    calls w' = new ++ calls w /\
    failures new <= length (Vectorize.errors result) /\
    (failures new = 0 -> Vectorize.errors result = []).
Proof.
  rewrite restore_run.
  destruct (passResult_anatomy userId env w) as (new & Hc & _ & _ & Hf & Hz & _).
  by exists (snd (passResult userId env w)), (fst (passResult userId env w)), new.
Qed.

(** C5: after a pass that reported no error, every row of the namespace has
    its vector, and a second pass started in the state the first one left
    (no write in between) only reads, leaves both stores as they are and
    returns [restored: 0], whatever the services answer to it. *)
Theorem reconcile_idempotent (userId : string) (env env' : Env) (w : World)
    (result1 : Vectorize.RestoreResult) (w1 : World) :
  Vectorize.restoreMissingMemoriesToVectorize userId env w = Returned result1 w1 ->
  Vectorize.errors result1 = [] ->
  (forall m, In m (rowsOf userId w1) -> is_Some (vectors w1 !! mem_id m)) /\
  exists result2 w2 new,
    Vectorize.restoreMissingMemoriesToVectorize userId env' w1 = Returned result2 w2 /\
    calls w2 = new ++ calls w1 /\
    forallb isRead new = true /\
    Vectorize.restored result2 = 0 /\
    vectors w2 = vectors w1 /\
    memories w2 = memories w1.
Proof.
  rewrite restore_run. intros [= <- <-] Herrs.
  destruct (passResult_anatomy userId env w) as (new1 & _ & Hm1 & _ & _ & _ & _ & Hcov & _).
  assert (Hrows : rowsOf userId (fst (passResult userId env w)) = rowsOf userId w).
  { unfold rowsOf. by rewrite Hm1. }
  assert (Hall : forall m, In m (rowsOf userId (fst (passResult userId env w))) ->
                           is_Some (vectors (fst (passResult userId env w)) !! mem_id m)).
  { rewrite Hrows. by apply Hcov. }
  split; [exact Hall|].
  rewrite restore_run.
  destruct (passResult_anatomy userId env' (fst (passResult userId env w)))
    as (new2 & Hc2 & Hm2 & _ & _ & _ & _ & _ & Hnoop).
  destruct (Hnoop Hall) as (Hv & Hrd & Hr).
  by eexists _, _, new2.
Qed.

Lemma reconcile_embedding_failures_witness :
  exists w' locals',
    Vectorize.processChunk "u1" (failingAt 1) twoRows (emptyWorld, Vectorize.mkResult 0 [])
      = Returned tt (w', locals') /\
    In (Vectorize.mkError "m1" "Failed to generate embedding: AI down")
       (Vectorize.errors locals').
Proof.
  destruct (proj1 (reconcile_embedding_failures "u1" (failingAt 1) twoRows emptyWorld
                     (Vectorize.mkResult 0 []) eq_refl))
    as (w' & locals' & new & Hrun & _ & _ & Hrec & _).
  exists w', locals'. split; [exact Hrun|].
  apply (Hrec (mkMemory "m1" "first") (AiThrows (JS.JsError "AI down"))
              (JS.JsError "AI down")).
  - vm_compute. tauto.
  - reflexivity.
Defined.

Example reconcile_one_failure :
  exists w',
    Vectorize.restoreMissingMemoriesToVectorize "u1" (failingAt 2) driftedWorld
    = Returned (Vectorize.mkResult 1
                  [Vectorize.mkError "m2" "Failed to generate embedding: AI down"]) w'
    /\ is_Some (vectors w' !! "m1") /\ vectors w' !! "m2" = None.
Proof.
  eexists. split; [vm_compute; reflexivity|].
  vm_compute. split; [by eexists | done].
Qed.

Lemma reconcile_idempotent_witness :
  exists result1 w1,
    Vectorize.restoreMissingMemoriesToVectorize "u1" quietEnv driftedWorld
      = Returned result1 w1 /\
    Vectorize.restored result1 = 2 /\
    exists result2 w2,
      Vectorize.restoreMissingMemoriesToVectorize "u1" quietEnv w1 = Returned result2 w2 /\
      Vectorize.restored result2 = 0.
Proof.
  pose proof (restore_run "u1" quietEnv driftedWorld) as Hrun.
  set (result1 := snd (passResult "u1" quietEnv driftedWorld)) in Hrun.
  set (w1 := fst (passResult "u1" quietEnv driftedWorld)) in Hrun.
  exists result1, w1. split; [exact Hrun|]. split; [vm_compute; reflexivity|].
  destruct (reconcile_idempotent "u1" quietEnv quietEnv driftedWorld result1 w1 Hrun)
    as (_ & result2 & w2 & new & Hrun2 & _ & _ & Hzero & _).
  - vm_compute. reflexivity.
  - by exists result2, w2.
Defined.

(** ** The store path (C1, C3) *)

Section Hoare.
Context {S : Type} (Inv : S -> Prop).

Lemma hoare_ret {A} (P : S -> Prop) (a : A) (Q : A -> S -> Prop) :
  (forall s, P s -> Q a s) -> hoare Inv P (ret a) Q.
Proof. intros H s Hs. by apply H. Qed.

Lemma hoare_bind {A B} (P : S -> Prop) (m : M S A) (R : A -> S -> Prop)
    (k : A -> M S B) (Q : B -> S -> Prop) :
  hoare Inv P m R -> (forall a, hoare Inv (R a) (k a) Q) -> hoare Inv P (bind m k) Q.
Proof.
  intros Hm Hk s Hs. unfold bind. specialize (Hm s Hs).
  destruct (m s) as [a s'|e s']; [by apply Hk | done].
Qed.

Lemma hoare_tryCatch {A} (P : S -> Prop) (m : M S A) (handler : JS.exn -> M S A)
    (Q : A -> S -> Prop) :
  hoare Inv P m Q -> (forall e, hoare Inv Inv (handler e) Q) ->
  hoare Inv P (tryCatch m handler) Q.
Proof.
  intros Hm Hh s Hs. unfold tryCatch. specialize (Hm s Hs).
  destruct (m s) as [a s'|e s']; [done | by apply Hh].
Qed.

Lemma hoare_final {A} (P : S -> Prop) (m : M S A) (s : S) :
  hoare Inv P m (fun _ => Inv) -> P s -> Inv (finalState (m s)).
Proof. intros Hm Hs. specialize (Hm s Hs). by destruct (m s). Qed.
End Hoare.

Lemma uuidv4_keeps (env : Env) :
  hoare neverRowOnly neverRowOnly (uuidv4 env) (fun _ => neverRowOnly).
Proof. by intros w Hw. Qed.

Lemma nowISO_keeps (env : Env) :
  hoare neverRowOnly neverRowOnly (nowISO env) (fun _ => neverRowOnly).
Proof. by intros w Hw. Qed.

Lemma generateEmbeddings_keeps (text : string) (env : Env) :
  hoare neverRowOnly neverRowOnly (Vectorize.generateEmbeddings text env)
        (fun _ => neverRowOnly).
Proof.
  intros w Hw. rewrite generateEmbeddings_run. cbv zeta.
  by destruct (embeddingOutcome _).
Qed.

Lemma upsert_one_keeps (env : Env) (v : VectorizeVector) :
  hoare neverRowOnly neverRowOnly (VECTORIZE_upsert env [v])
        (fun _ w' => neverRowOnly w' /\ is_Some (vectors w' !! vec_id v)).
Proof.
  intros w Hw. unfold VECTORIZE_upsert.
  destruct (fault env (tick w)); [done|].
  split.
  - intros row Hrow. apply upsertAll_is_Some. right. by apply Hw.
  - apply upsertAll_is_Some. left. by left.
Qed.

(** [storeMemory] leaves the rows alone and, when it returns, has written
    the vector of the id it returns. *)
Lemma storeMemory_keeps (text userId : string) (env : Env) :
  hoare neverRowOnly neverRowOnly (Vectorize.storeMemory text userId env)
        (fun id w' => neverRowOnly w' /\ is_Some (vectors w' !! id)).
Proof.
  unfold Vectorize.storeMemory.
  eapply hoare_bind; [apply uuidv4_keeps|]. intros memoryId.
  eapply hoare_bind; [apply generateEmbeddings_keeps|]. intros values.
  eapply hoare_bind; [apply upsert_one_keeps|]. intros [].
  by apply hoare_ret.
Qed.

(** [storeMemoryInD1] inserts the row of an id whose vector is there. *)
Lemma storeMemoryInD1_keeps (content userId : string) (env : Env) (memoryId : string) :
  hoare neverRowOnly
        (fun w => neverRowOnly w /\ is_Some (vectors w !! memoryId))
        (Db.storeMemoryInD1 content userId env memoryId)
        (fun _ => neverRowOnly).
Proof.
  intros w [Hw Hid]. unfold Db.storeMemoryInD1.
  destruct (fault env (tick w)); [done|].
  destruct (Db.hasRow memoryId (memories w)); [done|].
  intros row [Hrow|Hrow]; [by subst row | by apply Hw].
Qed.

Lemma add_to_memory_keeps (userId : string) (env : Env) (text : string) :
  hoare neverRowOnly neverRowOnly (Mcp.add_to_memory userId env text)
        (fun _ => neverRowOnly).
Proof.
  unfold Mcp.add_to_memory.
  apply hoare_tryCatch; [|intros e; by apply hoare_ret].
  eapply hoare_bind; [apply storeMemory_keeps|]. intros memoryId.
  eapply hoare_bind; [apply storeMemoryInD1_keeps|]. intros ?.
  by apply hoare_ret.
Qed.

Lemma add_to_memory_tagged_keeps (userId : string) (env : Env) (text : string)
    (title projectName : option string) (tags : option (list string)) :
  hoare neverRowOnly neverRowOnly
        (McpMemory.add_to_memory userId env text title projectName tags)
        (fun _ => neverRowOnly).
Proof.
  unfold McpMemory.add_to_memory, McpMemory.call_storeMemoryInD1.
  apply hoare_tryCatch; [|intros e; by apply hoare_ret].
  eapply hoare_bind; [apply storeMemory_keeps|]. intros memoryId.
  eapply hoare_bind; [apply storeMemoryInD1_keeps|]. intros ?.
  by apply hoare_ret.
Qed.

Lemma generateMetadata_keeps (env : Env) (section : Mcp.Section) (docType : string)
    (projectName priority : option string) (tags : option (list string)) :
  hoare neverRowOnly neverRowOnly
        (Mcp.generateMetadata env section docType projectName priority tags)
        (fun _ => neverRowOnly).
Proof.
  unfold Mcp.generateMetadata.
  eapply hoare_bind; [apply nowISO_keeps|]. intros timestamp. by apply hoare_ret.
Qed.

Lemma storeSections_keeps (userId : string) (env : Env) (docType : string)
    (projectName priority : option string) (tags : option (list string))
    (sections : list Mcp.Section) :
  forall stored,
    hoare neverRowOnly neverRowOnly
          (Mcp.storeSections userId env docType projectName priority tags sections stored)
          (fun _ => neverRowOnly).
Proof.
  induction sections as [|section rest IH]; intros stored; simpl.
  - by apply hoare_ret.
  - eapply hoare_bind; [|intros stored'; apply IH].
    apply hoare_tryCatch; [|intros e; by apply hoare_ret].
    eapply hoare_bind; [apply generateMetadata_keeps|]. intros formattedContent.
    eapply hoare_bind; [apply storeMemory_keeps|]. intros memoryId.
    eapply hoare_bind; [apply storeMemoryInD1_keeps|]. intros ?.
    by apply hoare_ret.
Qed.

Lemma storeMasterIndex_keeps (userId : string) (env : Env) (docType : string)
    (projectName priority : option string) (tags : option (list string))
    (sections : list Mcp.Section) (stored : list Mcp.StoredSection) :
  hoare neverRowOnly neverRowOnly
        (Mcp.storeMasterIndex userId env docType projectName priority tags sections stored)
        (fun _ => neverRowOnly).
Proof.
  unfold Mcp.storeMasterIndex.
  apply hoare_tryCatch; [|intros e; by apply hoare_ret].
  eapply hoare_bind; [apply nowISO_keeps|]. intros timestamp. cbv zeta.
  eapply hoare_bind; [apply storeMemory_keeps|]. intros memoryId.
  eapply hoare_bind; [apply storeMemoryInD1_keeps|]. intros ?.
  by apply hoare_ret.
Qed.

Lemma remember_artifact_keeps (userId : string) (env : Env) (text : string)
    (documentType projectName priority : option string) (tags : option (list string)) :
  hoare neverRowOnly neverRowOnly
        (Mcp.remember_artifact userId env text documentType projectName priority tags)
        (fun _ => neverRowOnly).
Proof.
  unfold Mcp.remember_artifact.
  apply hoare_tryCatch; [|intros e; by apply hoare_ret].
  cbv zeta.
  eapply hoare_bind; [apply storeSections_keeps|]. intros stored.
  eapply hoare_bind; [apply storeMasterIndex_keeps|]. intros ?.
  by apply hoare_ret.
Qed.

(** C1, as the code has it: the store path writes the vector first and the
    row second, so after any sequence of store requests (plain memories,
    artifact sections, master indexes), whichever external calls fail, every
    id in the Relational Store is in the Vector Index too: an id is in
    neither store, only in the Vector Index, or in both. *)
Theorem store_path_never_row_only (env : Env) (requests : list StoreRequest) (w : World) :
  neverRowOnly w -> neverRowOnly (serveAll env requests w).
Proof.
  revert w. induction requests as [|request rest IH]; intros w Hw; simpl; [done|].
  apply IH. apply (hoare_final neverRowOnly neverRowOnly); [|done].
  destruct request; simpl.
  - apply add_to_memory_keeps.
  - apply add_to_memory_tagged_keeps.
  - apply remember_artifact_keeps.
Qed.

Lemma store_path_never_row_only_witness :
  neverRowOnly
    (serveAll (failingAt 9)
       [AddToMemory "u1" "User prefers dark mode";
        RememberArtifact "u1" "plain notes" None (Some "auth") None None] emptyWorld).
Proof.
  apply store_path_never_row_only. intros row Hrow. destruct Hrow.
Defined.

(** The invariant as the specification words it fails: when the insert
    into D1 rejects after the upsert went through, the id is in the Vector
    Index and has no row. *)
Lemma store_path_vector_only :
  ~ neverVectorOnly (serveAll (failingAt 3) [AddToMemory "u1" "User prefers dark mode"]
                              emptyWorld).
Proof.
  intros H. specialize (H "id-0").
  assert (Hv : is_Some (vectors (serveAll (failingAt 3)
                  [AddToMemory "u1" "User prefers dark mode"] emptyWorld) !! "id-0")).
  { vm_compute. by eexists. }
  specialize (H Hv). vm_compute in H. discriminate.
Qed.

(** C3, at the code: the handler builds the metadata and passes it to
    [storeMemoryInD1], whose four parameters and three-column INSERT drop
    it. The outcome of [add_to_memory] does not depend on the title, the
    project name or the tags, and the row written for a request that
    supplies all three holds the id, the namespace, the content and the
    time of the insert only. *)
Theorem add_to_memory_drops_metadata :
  (forall userId env text title projectName tags title' projectName' tags' w,
     McpMemory.add_to_memory userId env text title projectName tags w
     = McpMemory.add_to_memory userId env text title' projectName' tags' w) /\
  memories (finalState
              (McpMemory.add_to_memory "u1" quietEnv "Ship v2 on Friday"
                 (Some "Release plan") (Some "roadmap") (Some ["plan"; "release"])
                 emptyWorld))
  = [mkRow "id-0" "u1" "Ship v2 on Friday" 3].
Proof. split; [reflexivity | vm_compute; reflexivity]. Qed.

(** ** Deletion from the Vector Index (C4) *)

Lemma deleteByIds_one (index : gmap string VectorEntry) (memoryId : string) :
  foldl (fun m id => delete id m) index [memoryId] = delete memoryId index.
Proof. reflexivity. Qed.

(** C4: the deletion request sent to the Vector Index names the id only.
    Whatever namespace the caller passes, the same request is issued and
    the same state results; when the request goes through, the entry of
    that id is gone even if it belongs to another namespace, and no other
    entry is touched. *)
Theorem deleteVectorById_not_namespace_scoped (memoryId userId : string) (env : Env)
    (w : World) :
  (forall other,
     Vectorize.deleteVectorById memoryId other env w
     = Vectorize.deleteVectorById memoryId userId env w) /\
  (exists failure,
     calls (finalState (Vectorize.deleteVectorById memoryId userId env w))
     = CallDeleteByIds [memoryId] failure :: calls w) /\
  (forall entry,
     vectors w !! memoryId = Some entry -> ent_namespace entry <> userId ->
     fault env (tick w) = None ->
     exists w',
       Vectorize.deleteVectorById memoryId userId env w = Returned tt w' /\
       vectors w' !! memoryId = None /\
       (forall id, id <> memoryId -> vectors w' !! id = vectors w !! id)).
Proof.
  unfold Vectorize.deleteVectorById, VECTORIZE_deleteByIds.
  split; [done|]. split.
  - destruct (fault env (tick w)) as [e|]; simpl; eauto.
  - intros entry Hentry Hns Hok. rewrite Hok. eexists. split; [reflexivity|].
    cbn [vectors]. rewrite deleteByIds_one. split.
    + apply lookup_delete_eq.
    + intros id Hne. by apply lookup_delete_ne.
Qed.

Lemma deleteVectorById_not_namespace_scoped_witness :
  exists w',
    Vectorize.deleteVectorById "x" "u1" quietEnv otherTenantWorld = Returned tt w' /\
    vectors w' !! "x" = None.
Proof.
  destruct (proj2 (proj2 (deleteVectorById_not_namespace_scoped "x" "u1" quietEnv
                            otherTenantWorld))
              (mkEntry [1%float] "u2" "a memory of u2" "memory"))
    as (w' & Hrun & Hgone & _).
  - vm_compute. reflexivity.
  - discriminate.
  - reflexivity.
  - by exists w'.
Defined.

(** ** Paragraph fallback (C8) *)

Lemma partTitles_imap {A} (f : nat -> A -> Mcp.Section) (l : list A) :
  (forall i x, Mcp.title (f i x) = "Part " +:+ JS.showNat (i + 1)) ->
  map Mcp.title (imap f l) = partTitles (length l).
Proof.
  intros H. unfold partTitles.
  change (map Mcp.title (imap f l)) with (Mcp.title <$> imap f l).
  rewrite fmap_imap.
  rewrite (imap_ext _ (fun j _ => "Part " +:+ JS.showNat (j + 1))).
  - apply imap_seq_0.
  - intros i x _. apply H.
Qed.

Lemma imap_nonempty {A B} (f : nat -> A -> B) (l : list A) (d : list B) :
  l <> [] ->
  match imap f l with [] => d | s :: rest => s :: rest end = imap f l.
Proof. by destruct l. Qed.

(** C8, as the code has it: when the header split finds at most one piece
    and the PRD fallback gives nothing, the text is split on blank lines
    (two line feeds), exactly the paragraphs whose trimmed length exceeds 50
    are kept, and they become, trimmed and in order, the sections "Part 1",
    "Part 2", ...; with none kept the whole document is the one section.
    Plain prose of two 80-character paragraphs gives "Part 1" and "Part 2". *)
Theorem paragraph_fallback (rawText docType : string) :
  length (Mcp.headerSections rawText) <= 1 ->
  typeSpecificSections rawText docType = [] ->
  let kept := List.filter (fun p => 50 <? String.length (JS.trim p))
                          (JS.split rawText blankLine) in
  (kept <> [] ->
     Mcp.parseDocumentSections rawText docType
     = imap (fun index p => Mcp.mkSection ("Part " +:+ JS.showNat (index + 1))
                                          (JS.trim p) "chunk") kept /\
     map Mcp.title (Mcp.parseDocumentSections rawText docType) = partTitles (length kept)) /\
  (kept = [] ->
     Mcp.parseDocumentSections rawText docType
     = [Mcp.mkSection "Complete Document" rawText "full"]) /\
  map Mcp.title (Mcp.parseDocumentSections twoParagraphs (Mcp.finalDocType None twoParagraphs))
  = ["Part 1"; "Part 2"].
Proof.
  intros Hheaders Hprd kept.
  assert (Hparse : Mcp.parseDocumentSections rawText docType
                   = match Mcp.paragraphSections rawText with
                     | [] => [Mcp.mkSection "Complete Document" rawText "full"]
                     | s :: rest => s :: rest
                     end).
  { unfold Mcp.parseDocumentSections.
    replace (1 <? length (Mcp.headerSections rawText)) with false
      by (symmetry; apply Nat.ltb_ge; lia).
    unfold typeSpecificSections in Hprd. rewrite Hprd. cbv beta iota zeta.
    by destruct (Mcp.paragraphSections rawText). }
  assert (Hsections : Mcp.paragraphSections rawText
                      = imap (fun index p => Mcp.mkSection ("Part " +:+ JS.showNat (index + 1))
                                                           (JS.trim p) "chunk") kept)
    by reflexivity.
  split; [|split].
  - intros Hne. rewrite Hparse, Hsections, imap_nonempty by done.
    split; [done | by apply partTitles_imap].
  - intros Hnone. by rewrite Hparse, Hsections, Hnone.
  - vm_compute. reflexivity.
Qed.

Lemma paragraph_fallback_witness :
  Mcp.parseDocumentSections twoParagraphs "Documentation"
  = [Mcp.mkSection "Part 1" (copies 80 "a") "chunk";
     Mcp.mkSection "Part 2" (copies 80 "b") "chunk"].
Proof.
  destruct (paragraph_fallback twoParagraphs "Documentation") as [Hkept _].
  - vm_compute. constructor.
  - reflexivity.
  - destruct Hkept as [Hparse _]; [vm_compute; discriminate|].
    rewrite Hparse. vm_compute. reflexivity.
Defined.

(** The paragraph fallback as the specification words it fails twice: a
    paragraph longer than 50 characters only by its trailing spaces is
    dropped, and a text cut into header pieces that all have an empty body
    skips the paragraph fallback and becomes the whole-document section. *)
Lemma paragraph_fallback_not_as_stated :
  ~ paragraphFallbackAsStated paddedParagraphs "Documentation" /\
  ~ paragraphFallbackAsStated bareHeaders "Documentation".
Proof.
  split; intros H.
  - specialize (H eq_refl eq_refl). vm_compute in H. discriminate.
  - specialize (H eq_refl eq_refl). vm_compute in H. discriminate.
Qed.

(** ** Section order of the reconstruction (C9) *)

Lemma orderOf_plain (name : string) :
  plainTitle name = true ->
  Reconstruct.orderOf name = Reconstruct.OrdNumber (priorityOf name).
Proof.
  unfold plainTitle, Reconstruct.orderOf, priorityOf. intros H.
  apply negb_true_iff in H.
  destruct (Reconstruct.ownProperty Reconstruct.order name) as [n|] eqn:E.
  - assert (Hn : n <> 0%Z).
    { unfold Reconstruct.order in E. simpl in E.
      repeat match type of E with
             | (if ?c then _ else _) = _ => destruct c
             end; by simplify_eq. }
    by apply Z.eqb_neq in Hn as ->.
  - by rewrite H.
Qed.

(** C9, at the code: a section titled after a property that every object
    literal inherits ([constructor], [toString], ...) does not get priority
    999. Its lookup in the priority table finds the inherited function, the
    comparator returns NaN against any other title, the sort takes NaN for
    a tie, and the section keeps its place. For the API document stored by
    [remember_artifact] with the headers "constructor" and "Executive
    Summary", the reconstruction puts "constructor" before the Executive
    Summary, which the table puts first. *)
Theorem sortSections_inherited_title (localeCompare : string -> string -> Z) :
  fst (Reconstruct.collectSections apiMemories) = [constructorSection; summarySection] /\
  Reconstruct.compareSections localeCompare constructorSection summarySection
    = Reconstruct.NaN /\
  Reconstruct.compareSections localeCompare summarySection constructorSection
    = Reconstruct.NaN /\
  Reconstruct.orderedSections localeCompare apiMemories
    = [constructorSection; summarySection].
Proof. vm_compute. repeat split. Qed.

(** X1: for sections whose titles name no inherited property, the order of
    the reconstruction is the fixed priority table (999 for a title outside
    it) with ties broken by [localeCompare], provided [localeCompare] is a
    total and transitive title order: the sorted list is a rearrangement of
    the sections in which every section comes before the ones after it. *)
Theorem sortSections_plain_titles (localeCompare : string -> string -> Z)
    (sections : list Reconstruct.Retrieved) :
  (forall a b, (localeCompare a b > 0)%Z -> (localeCompare b a <= 0)%Z) ->
  (forall a b c, (localeCompare a b <= 0)%Z -> (localeCompare b c <= 0)%Z ->
                 (localeCompare a c <= 0)%Z) ->
  Forall (fun s => plainTitle (Reconstruct.sectionName s) = true) sections ->
  Reconstruct.sortSections localeCompare sections ≡ₚ sections /\
  StronglySorted (specBefore localeCompare) (Reconstruct.sortSections localeCompare sections).
Proof.
  intros Htotal Htrans Hplain.
  split; [apply sortWith_perm|].
  unfold Reconstruct.sortSections.
  set (cmp := fun a b => Reconstruct.signOfNumber (Reconstruct.compareSections localeCompare a b)).
  (* on plain titles the comparator is the order of the specification *)
  assert (Hcmp : forall a b,
            plainTitle (Reconstruct.sectionName a) = true ->
            plainTitle (Reconstruct.sectionName b) = true ->
            (cmp a b <> Gt <-> specBefore localeCompare a b)).
  { intros a b Ha Hb. unfold cmp, Reconstruct.compareSections, specBefore.
    rewrite (orderOf_plain _ Ha), (orderOf_plain _ Hb). simpl.
    destruct (Z.eqb_spec (priorityOf (Reconstruct.sectionName a))
                         (priorityOf (Reconstruct.sectionName b))) as [Heq|Hne]; simpl.
    - rewrite Z.compare_gt_iff. lia.
    - rewrite Z.compare_gt_iff. lia. }
  (* sort with the comparator restricted to the plain sections *)
  assert (Hsorted : forall l,
            Forall (fun s => plainTitle (Reconstruct.sectionName s) = true) l ->
            Forall (fun s => plainTitle (Reconstruct.sectionName s) = true) (sortWith cmp l) /\
            StronglySorted (specBefore localeCompare) (sortWith cmp l)).
  { induction l as [|x l IH]; intros Hl; simpl.
    - split; constructor.
    - apply Forall_cons in Hl as [Hx Hl]. destruct (IH Hl) as [Hpl Hs].
      split.
      + rewrite insertSorted_perm. by constructor.
      + clear IH Hl. induction Hs as [|y l' Hl' IHs Hy]; simpl.
        * repeat constructor.
        * apply Forall_cons in Hpl as [Hyp Hpl].
          assert (Hxy : cmp x y <> Gt -> StronglySorted (specBefore localeCompare) (x :: y :: l')).
          { intros Hle. apply Hcmp in Hle; [|done..].
            constructor; [by constructor|]. constructor; [done|].
            rewrite Forall_forall in Hy, Hpl |- *. intros z Hz.
            specialize (Hy z Hz). specialize (Hpl z Hz). simpl in Hpl.
            unfold specBefore in *. destruct Hle as [?|[? ?]], Hy as [?|[? ?]].
            - left. lia.
            - left. lia.
            - left. lia.
            - right. split; [lia|]. by eapply Htrans. }
          destruct (cmp x y) eqn:E.
          -- apply Hxy. congruence.
          -- apply Hxy. congruence.
          -- constructor; [by apply IHs|].
             rewrite insertSorted_perm.
             constructor; [|done].
             ++ assert (Hgt : ~ specBefore localeCompare x y).
                { intros Hb. apply Hcmp in Hb; [|done..]. congruence. }
                unfold specBefore in *.
                pose proof (Htotal (Reconstruct.sectionName x) (Reconstruct.sectionName y)).
                lia. }
  by apply Hsorted.
Qed.

(** ** Further properties of the same functions *)

Lemma sortSections_plain_titles_witness :
  StronglySorted (specBefore byLength)
    (Reconstruct.sortSections byLength
       [ Reconstruct.mkRetrieved "Timeline" "section" "t" "1";
         Reconstruct.mkRetrieved "Rollout plan" "section" "r" "2";
         Reconstruct.mkRetrieved "Overview" "section" "o" "3";
         Reconstruct.mkRetrieved "Risks" "section" "k" "4" ]).
Proof.
  apply sortSections_plain_titles.
  - unfold byLength. lia.
  - unfold byLength. lia.
  - repeat constructor.
Defined.

Example reconstruct_order_example :
  map Reconstruct.sectionName
    (Reconstruct.sortSections byLength
       [ Reconstruct.mkRetrieved "Timeline" "section" "t" "1";
         Reconstruct.mkRetrieved "Rollout plan" "section" "r" "2";
         Reconstruct.mkRetrieved "Overview" "section" "o" "3";
         Reconstruct.mkRetrieved "Risks" "section" "k" "4" ])
  = ["Overview"; "Timeline"; "Risks"; "Rollout plan"].
Proof. vm_compute. reflexivity. Qed.

(** X2: the chunks of a reconciliation pass partition the rows read: put
    end to end they are the rows, in order, and each chunk holds between 1
    and [CHUNK_SIZE] = 10 rows. *)
Theorem chunksOf_partition (rows : list D1Memory) :
  concat (Vectorize.chunksOf rows) = rows /\
  Forall (fun chunk => 1 <= length chunk <= Vectorize.CHUNK_SIZE) (Vectorize.chunksOf rows).
Proof.
  split; [apply chunksOf_concat|].
  apply List.Forall_forall. intros chunk Hin. split.
  - pose proof (chunksOf_nonempty rows chunk Hin). destruct chunk; [done | simpl; lia].
  - unfold Vectorize.chunksOf, Vectorize.slice in Hin.
    apply in_map_iff in Hin as (k & <- & _).
    rewrite length_take. unfold Vectorize.CHUNK_SIZE. lia.
Qed.


(** X4: a search whose query is embedded and whose matches all stay at or
    under the threshold returns the empty list, not an error. *)
Theorem searchMemories_nothing_above (query userId : string) (env : Env)
    (filters : option (list (string * string))) (w : World)
    (values : list float) (data : list (list float)) (ms : list VectorizeMatch) :
  AI_run env (tick w) query = AiData (values :: data) ->
  VECTORIZE_query env (S (tick w)) = QueryMatches (Some ms) ->
  aboveThreshold ms = [] ->
  exists w', Vectorize.searchMemories query userId env filters w = Returned [] w'.
Proof.
  intros Hai Hq Hnone.
  unfold Vectorize.searchMemories, Vectorize.generateEmbeddings, bind, AI_run_bge_m3,
    VECTORIZE_query_, ret, throw.
  rewrite Hai. unfold tick at 1. simpl. fold (tick w). rewrite Hq.
  destruct ms as [|m ms]; [by eexists|].
  unfold aboveThreshold in Hnone. rewrite Hnone. by eexists.
Qed.

Lemma searchMemories_nothing_above_witness :
  exists w', Vectorize.searchMemories "q" "u1" coldEnv None emptyWorld = Returned [] w'.
Proof.
  apply (searchMemories_nothing_above "q" "u1" coldEnv None emptyWorld [1%float] []
           [ mkMatch "a" 0.3 (Some "A"); mkMatch "b" 0.5 (Some "B") ]).
  - reflexivity.
  - reflexivity.
  - vm_compute. reflexivity.
Defined.
